(** * Metadata extraction from firmware images: a Rocq model of
      [sample2_script/extract_meta_v3.12.py]

    The development follows the script top-down:
    - [find_json_bytes]: the balanced-object scanner,
    - [quick_extract_tags]: scanner, legacy fallback and parser adapter,
    - [save_metadata_files]: field classification, base64/decompression
      cascade and the artifact writer,
    - [main]: the entry point.

    Python [bytes] are lists of [byte], Python [str] are lists of Unicode
    code points, Python [int] is [Z].  Library calls whose code is not part
    of the script (gzip, zlib, zipfile, json, the operating system) are
    gathered in the class [Env]. *)

From Stdlib Require Import ZArith NArith List Bool Lia.
From Stdlib Require Import Strings.Byte Strings.Ascii Strings.String.
From stdpp Require Import base option list gmap.

Local Open Scope Z_scope.
Set Warnings "-register-all".

(** ** Bytes and strings *)

Abbreviation bytes := (list byte).

(** A Python [str]: a sequence of code points. *)
Abbreviation str := (list N).

#[global] Instance byte_eq_decision : EqDecision byte := Byte.byte_eq_dec.

Definition len {A} (l : list A) : Z := Z.of_nat (length l).

(** Literals: [b"..."] and ["..."] of the script. *)
Definition blit (s : string) : bytes := list_byte_of_string s.
Definition slit (s : string) : str := map Byte.to_N (list_byte_of_string s).

(** The same with every apostrophe standing for a double quote, to write
    JSON text. *)
Definition dq (c : byte) : byte := if Byte.eqb c x27 then x22 else c.
Definition jlit (s : string) : bytes := map dq (list_byte_of_string s).

(** [b.startswith(pre)] *)
Fixpoint startswith (pre b : bytes) : bool :=
  match pre, b with
  | [], _ => true
  | _ :: _, [] => false
  | p :: pre', c :: b' => Byte.eqb p c && startswith pre' b'
  end.

(** [data.find(sub, start)] for [0 <= start]: the lowest index at or after
    [start] where [sub] occurs, or [-1]. *)
Fixpoint find_at (sub rest : bytes) (i : Z) : Z :=
  if startswith sub rest then i
  else match rest with
       | [] => -1
       | _ :: tl => find_at sub tl (i + 1)
       end.

Definition bytes_find (data sub : bytes) (start : Z) : Z :=
  find_at sub (drop (Z.to_nat start) data) start.

(** [data[lo:hi]] for [0 <= lo] and [0 <= hi]. *)
Definition slice (data : bytes) (lo hi : Z) : bytes :=
  take (Z.to_nat (hi - lo)) (drop (Z.to_nat lo) data).

(** ** The scanner: [find_json_bytes] *)

Record ScanState := mkScan { depth : Z; in_str : bool; escape : bool }.

(** What one turn of the inner [while] does: go on with a new state, or
    [return data[start:i + 1]]. *)
Inductive walk_step := Continue (st : ScanState) | Return.

Definition scan_step (st : ScanState) (ch : byte) : walk_step :=
  if in_str st then
    if escape st then Continue (mkScan (depth st) true false)
    else if Byte.eqb ch x5c then Continue (mkScan (depth st) true true)
    else if Byte.eqb ch x22 then Continue (mkScan (depth st) false (escape st))
    else Continue st
  else
    if Byte.eqb ch x22 then Continue (mkScan (depth st) true (escape st))
    else if Byte.eqb ch x7b then Continue (mkScan (depth st + 1) false (escape st))
    else if Byte.eqb ch x7d then
      let d := depth st - 1 in
      if d =? 0 then Return else Continue (mkScan d false (escape st))
    else Continue st.

Definition scan_init : ScanState := mkScan 0 false false.

(** The inner loop [while i < limit], run over the bytes [data[i:limit]]:
    the index at which it returns, if it does. *)
Fixpoint walk (window : bytes) (st : ScanState) (i : Z) : option Z :=
  match window with
  | [] => None
  | ch :: rest =>
      match scan_step st ch with
      | Return => Some i
      | Continue st' => walk rest st' (i + 1)
      end
  end.

(** The turns of the inner loop, in order: the state at the head of the
    loop, the byte read and what the turn does. *)
Fixpoint walk_trace (window : bytes) (st : ScanState)
    : list (ScanState * byte * walk_step) :=
  match window with
  | [] => []
  | ch :: rest =>
      (st, ch, scan_step st ch)
        :: match scan_step st ch with
           | Return => []
           | Continue st' => walk_trace rest st'
           end
  end.

Definition scan_limit (data : bytes) (max_search_len : option Z) (start : Z) : Z :=
  match max_search_len with
  | None => len data
  | Some m => Z.min (len data) (start + m)
  end.

(** The outer loop [while start != -1].  Every turn moves [start] forward,
    so [length data] turns are enough; [None] is "out of fuel". *)
Fixpoint scan_candidates (fuel : nat) (data : bytes) (max_search_len : option Z)
    (start : Z) : option (option bytes) :=
  if start =? -1 then Some None
  else match fuel with
       | O => None
       | S fuel' =>
           let limit := scan_limit data max_search_len start in
           match walk (slice data start limit) scan_init start with
           | Some i => Some (Some (slice data start (i + 1)))
           | None =>
               scan_candidates fuel' data max_search_len
                 (bytes_find data [x7b] (start + 1))
           end
       end.

Definition find_json_bytes (data : bytes) (max_search_len : option Z) : option bytes :=
  match scan_candidates (S (length data)) data max_search_len
          (bytes_find data [x7b] 0) with
  | Some r => r
  | None => None
  end.

(** ** Text codecs used by the script *)

Definition u8 (n : N) : byte :=
  match Byte.of_N (n mod 256) with Some b => b | None => x00 end.

Definition between (lo hi n : N) : bool := ((lo <=? n) && (n <=? hi))%N.

(** [s.encode('utf-8')]; [None] is [UnicodeEncodeError] (a lone surrogate). *)
Definition utf8_encode_char (c : N) : option bytes :=
  if (c <? 0x80)%N then Some [u8 c]
  else if (c <? 0x800)%N then
    Some [u8 (N.lor 0xC0 (N.shiftr c 6)); u8 (N.lor 0x80 (N.land c 0x3F))]
  else if (c <? 0x10000)%N then
    if between 0xD800 0xDFFF c then None
    else Some [u8 (N.lor 0xE0 (N.shiftr c 12));
               u8 (N.lor 0x80 (N.land (N.shiftr c 6) 0x3F));
               u8 (N.lor 0x80 (N.land c 0x3F))]
  else if (c <? 0x110000)%N then
    Some [u8 (N.lor 0xF0 (N.shiftr c 18));
          u8 (N.lor 0x80 (N.land (N.shiftr c 12) 0x3F));
          u8 (N.lor 0x80 (N.land (N.shiftr c 6) 0x3F));
          u8 (N.lor 0x80 (N.land c 0x3F))]
  else None.

Fixpoint utf8_encode (s : str) : option bytes :=
  match s with
  | [] => Some []
  | c :: s' =>
      match utf8_encode_char c, utf8_encode s' with
      | Some e, Some es => Some (e ++ es)
      | _, _ => None
      end
  end.

(** A text can be written through a UTF-8 text file. *)
Definition encodable (s : str) : bool :=
  match utf8_encode s with Some _ => true | None => false end.

Definition is_cont (c : byte) : bool := between 0x80 0xBF (Byte.to_N c).
Definition cont_bits (c : byte) : N := N.land (Byte.to_N c) 0x3F.

(** [b.decode('utf-8')], strict; [None] is [UnicodeDecodeError]: a
    truncated or malformed sequence, an overlong form, a surrogate, or a
    value above U+10FFFF. *)
Fixpoint utf8_decode (b : bytes) : option str :=
  match b with
  | [] => Some []
  | b0 :: r0 =>
      let n0 := Byte.to_N b0 in
      if (n0 <? 0x80)%N then cons n0 <$> utf8_decode r0
      else if between 0xC2 0xDF n0 then
        match r0 with
        | c1 :: r1 =>
            if is_cont c1
            then cons (N.lor (N.shiftl (N.land n0 0x1F) 6) (cont_bits c1)) <$> utf8_decode r1
            else None
        | _ => None
        end
      else if between 0xE0 0xEF n0 then
        match r0 with
        | c1 :: c2 :: r2 =>
            let cp := N.lor (N.shiftl (N.land n0 0x0F) 12)
                        (N.lor (N.shiftl (cont_bits c1) 6) (cont_bits c2)) in
            if is_cont c1 && is_cont c2 && (0x800 <=? cp)%N
               && negb (between 0xD800 0xDFFF cp)
            then cons cp <$> utf8_decode r2
            else None
        | _ => None
        end
      else if between 0xF0 0xF4 n0 then
        match r0 with
        | c1 :: c2 :: c3 :: r3 =>
            let cp := N.lor (N.shiftl (N.land n0 0x07) 18)
                        (N.lor (N.shiftl (cont_bits c1) 12)
                           (N.lor (N.shiftl (cont_bits c2) 6) (cont_bits c3))) in
            if is_cont c1 && is_cont c2 && is_cont c3
               && between 0x10000 0x10FFFF cp
            then cons cp <$> utf8_decode r3
            else None
        | _ => None
        end
      else None
  end.

(** *** base64

    [base64.b64decode(s, validate=False)] is [binascii.a2b_base64] in its
    lenient mode: bytes outside the alphabet are skipped, a pad ends the
    input once it completes a quad, and leftover sextets are an error. *)

(** [table_a2b_base64]: the sextet of an alphabet byte. *)
Definition b64_value (c : byte) : option N :=
  let n := Byte.to_N c in
  if between 0x41 0x5A n then Some (n - 0x41)%N
  else if between 0x61 0x7A n then Some (n - 0x61 + 26)%N
  else if between 0x30 0x39 n then Some (n - 0x30 + 52)%N
  else if (n =? 0x2B)%N then Some 62%N
  else if (n =? 0x2F)%N then Some 63%N
  else None.

(** The decoding loop; a produced byte is consed on what the rest of the
    input produces, [None] is [binascii.Error]. *)
Fixpoint a2b_base64 (input : bytes) (quad_pos : nat) (leftchar : N) (pads : nat)
    : option bytes :=
  match input with
  | [] => if Nat.eqb quad_pos 0 then Some [] else None
  | this_ch :: rest =>
      if Byte.eqb this_ch x3d then
        if Nat.leb 2 quad_pos then
          if Nat.leb 4 (quad_pos + S pads) then Some []
          else a2b_base64 rest quad_pos leftchar (S pads)
        else a2b_base64 rest quad_pos leftchar pads
      else
        match b64_value this_ch with
        | None => a2b_base64 rest quad_pos leftchar pads
        | Some v =>
            match quad_pos with
            | 0%nat => a2b_base64 rest 1 v 0
            | 1%nat =>
                cons (u8 (N.lor (N.shiftl leftchar 2) (N.shiftr v 4)))
                  <$> a2b_base64 rest 2 (N.land v 0x0F) 0
            | 2%nat =>
                cons (u8 (N.lor (N.shiftl leftchar 4) (N.shiftr v 2)))
                  <$> a2b_base64 rest 3 (N.land v 0x03) 0
            | _ =>
                cons (u8 (N.lor (N.shiftl leftchar 6) v))
                  <$> a2b_base64 rest 0 0 0
            end
        end
  end.

Definition b64decode (s : bytes) : option bytes := a2b_base64 s 0 0 0.

(** The standard encoding, the [base64(...)] of the specification. *)
Definition b64_alphabet : bytes :=
  blit "ABCDEFGHIJKLMNOPQRSTUVWXYZabcdefghijklmnopqrstuvwxyz0123456789+/".

Definition b2a (v : N) : byte := nth (N.to_nat v) b64_alphabet x3d.

Definition enc1 (b1 : byte) : byte := b2a (N.shiftr (Byte.to_N b1) 2).
Definition enc2 (b1 b2 : byte) : byte :=
  b2a (N.lor (N.shiftl (N.land (Byte.to_N b1) 0x03) 4) (N.shiftr (Byte.to_N b2) 4)).
Definition enc3 (b2 b3 : byte) : byte :=
  b2a (N.lor (N.shiftl (N.land (Byte.to_N b2) 0x0F) 2) (N.shiftr (Byte.to_N b3) 6)).
Definition enc4 (b3 : byte) : byte := b2a (N.land (Byte.to_N b3) 0x3F).

Fixpoint b64encode (p : bytes) : bytes :=
  match p with
  | [] => []
  | [b1] => [enc1 b1; enc2 b1 x00; x3d; x3d]
  | [b1; b2] => [enc1 b1; enc2 b1 b2; enc3 b2 x00; x3d]
  | b1 :: b2 :: b3 :: rest =>
      enc1 b1 :: enc2 b1 b2 :: enc3 b2 b3 :: enc4 b3 :: b64encode rest
  end.

(** ASCII bytes read as text. *)
Definition ascii_str (b : bytes) : str := map Byte.to_N b.

(** ** Data model *)

(** The values [json.loads] builds.  A float is kept as its binary64 bit
    pattern; the script only passes it along. *)
Inductive json :=
| JNull
| JBool (b : bool)
| JInt (n : Z)
| JFloat (bits : N)
| JStr (s : str)
| JList (l : list json)
| JObject (d : list (str * json)).

(** A Python [dict] with string keys, in insertion order. *)
Abbreviation dict := (list (str * json)).

(** [d[k] = v] *)
Fixpoint dict_set (d : dict) (k : str) (v : json) : dict :=
  match d with
  | [] => [(k, v)]
  | (k', v') :: d' =>
      if bool_decide (k' = k) then (k', v) :: d'
      else (k', v') :: dict_set d' k v
  end.

(** [d.get(k)] *)
Fixpoint dict_get (d : dict) (k : str) : option json :=
  match d with
  | [] => None
  | (k', v') :: d' => if bool_decide (k' = k) then Some v' else dict_get d' k
  end.

(** Every string of the value can be written as UTF-8. *)
Fixpoint json_encodable (j : json) : bool :=
  match j with
  | JStr s => encodable s
  | JList l => forallb json_encodable l
  | JObject d => forallb (fun kv => encodable (fst kv) && json_encodable (snd kv)) d
  | _ => true
  end.

Definition dict_encodable (d : dict) : bool :=
  forallb (fun kv => encodable (fst kv) && json_encodable (snd kv)) d.

(** What a file holds: bytes written in binary mode, a text written
    through the UTF-8 text layer, or the [json.dump] of a dict (with
    [indent=2, ensure_ascii=False]). *)
Inductive content :=
| FBytes (b : bytes)
| FText (s : str)
| FJson (d : dict).

Record filesystem := mkFs { fs_dirs : gset str; fs_files : gmap str content }.

(** The outcome of a statement that may end in an uncaught exception. *)
Inductive result (A : Type) :=
| Ok (a : A)
| Crash.
Arguments Ok {A} a.
Arguments Crash {A}.

(** ** The libraries and the operating system

    [None] stands for a raised exception.  [json_loads] is [json.loads] on
    texts that begin with an opening brace, as all texts the script parses
    do: it raises or returns a dict.  [decode_replace] is
    [bytes.decode('utf-8', errors='replace')].  [makedirs_ok] and
    [openable] tell whether [os.makedirs(p, exist_ok=True)] and [open(p,
    'w')] or [open(p, 'wb')] succeed.  Console output is not modelled. *)
Class Env := {
  gzip_decompress : bytes -> option bytes;
  zlib_decompress : bytes -> option bytes;
  archive : Type;
  ZipFile : bytes -> option archive;
  namelist : archive -> list str;
  zip_read : archive -> str -> option bytes;
  json_loads : str -> option dict;
  decode_replace : bytes -> str;
  makedirs_ok : str -> bool;
  openable : str -> bool
}.

(** ** The writer: [save_metadata_files] *)

(** [os.path.join(a, b)] *)
Definition path_join (a b : str) : str :=
  match b with
  | 47%N :: _ => b
  | _ =>
      match last a with
      | None => a ++ b
      | Some 47%N => a ++ b
      | Some _ => a ++ slit "/" ++ b
      end
  end.

(** [s.endswith(suf)] *)
Definition endswith (s suf : str) : bool :=
  bool_decide (drop (length s - length suf) s = suf).

(** [re.match(r'^[A-Za-z0-9+/=\n\r]+$', s)]: one or more characters of the
    class from the start, then [$], which holds at the end of the string
    and just before a newline that ends it. *)
Definition in_class (c : N) : bool :=
  between 65 90 c || between 97 122 c || between 48 57 c
  || (c =? 43)%N || (c =? 47)%N || (c =? 61)%N || (c =? 10)%N || (c =? 13)%N.

Definition at_dollar (rest : str) : bool :=
  match rest with
  | [] => true
  | [10%N] => true
  | _ => false
  end.

Fixpoint class_star_dollar (s : str) : bool :=
  at_dollar s
  || match s with
     | [] => false
     | c :: r => in_class c && class_star_dollar r
     end.

Definition b64_re_match (s : str) : bool :=
  match s with
  | [] => false
  | c :: r => in_class c && class_star_dollar r
  end.

Section Writer.
Context {env : Env}.

Definition put (path : str) (c : content) (fs : filesystem) : filesystem :=
  mkFs (fs_dirs fs) (<[path := c]> (fs_files fs)).

(** [with open(path, 'wb') as f: f.write(b)] *)
Definition write_bytes (path : str) (b : bytes) (fs : filesystem) : option filesystem :=
  if openable path then Some (put path (FBytes b) fs) else None.

(** [with open(path, 'w', encoding='utf-8') as f: f.write(s)] *)
Definition write_text (path : str) (s : str) (fs : filesystem) : option filesystem :=
  if openable path then
    if encodable s then Some (put path (FText s) fs) else None
  else None.

(** The three guarded attempts of [try_decompress]; [None] is "fell out
    of the [try]" (signature absent, or the library raised). *)
Definition attempt_gzip (b : bytes) : option bytes :=
  if startswith [x1f; x8b] b then gzip_decompress b else None.

Definition attempt_zlib (b : bytes) : option bytes :=
  if (2 <=? len b) && match b with b0 :: _ => Byte.eqb b0 x78 | [] => false end
  then zlib_decompress b else None.

Definition attempt_zip (b : bytes) : option bytes :=
  if startswith [x50; x4b; x03; x04] b then
    match ZipFile b with
    | Some z =>
        match namelist z with
        | name :: _ => zip_read z name
        | [] => None
        end
    | None => None
    end
  else None.

Definition try_decompress (b : bytes) : option bytes :=
  match attempt_gzip b with
  | Some d => Some d
  | None =>
      match attempt_zlib b with
      | Some d => Some d
      | None =>
          match attempt_zip b with
          | Some d => Some d
          | None => None
          end
      end
  end.

(** Lines 210-225 and 228-241: the payload as [key.xml] when it is UTF-8
    text and that file can be written, else as [key.bin]. *)
Definition save_xml_payload (output_dir key : str) (payload : bytes)
    (fs : filesystem) : option filesystem :=
  match
    match utf8_decode payload with
    | Some text => write_text (path_join output_dir (key ++ slit ".xml")) text fs
    | None => None
    end
  with
  | Some fs' => Some fs'
  | None => write_bytes (path_join output_dir (key ++ slit ".bin")) payload fs
  end.

Definition is_xml_name (key : str) : bool :=
  bool_decide (key = slit "airframe_xml") || bool_decide (key = slit "parameter_xml").

(** Lines 165-248, after a successful [b64decode]. *)
Definition save_decoded (output_dir key : str) (decoded : bytes)
    (fs : filesystem) : option filesystem :=
  if bool_decide (key = slit "image") then
    write_bytes (path_join output_dir (slit "firmware.bin")) decoded fs
  else if is_xml_name key then
    let raw := decoded in
    match try_decompress raw with
    | Some decompressed => save_xml_payload output_dir key decompressed fs
    | None => save_xml_payload output_dir key raw fs
    end
  else write_bytes (path_join output_dir (key ++ slit ".bin")) decoded fs.

(** The test of line 160. *)
Definition is_b64_candidate (val : json) : bool :=
  match val with
  | JStr s => (100 <? len s) && b64_re_match s
  | _ => false
  end.

(** Lines 160-251: [Some fs'] when a [continue] inside the [try] was
    reached, [None] when control goes on to line 253 (the test failed, or
    an exception was caught at line 249). *)
Definition try_base64 (output_dir key : str) (val : json) (fs : filesystem)
    : option filesystem :=
  if is_b64_candidate val then
    match val with
    | JStr s =>
        match utf8_encode s with
        | Some enc =>
            match b64decode enc with
            | Some decoded => save_decoded output_dir key decoded fs
            | None => None
            end
        | None => None
        end
    | _ => None
    end
  else None.

(** The test of line 254. *)
Definition is_long_text (key : str) (val : json) : bool :=
  match val with
  | JStr s => endswith key (slit "_xml") || existsb (N.eqb 10) s || (200 <? len s)
  | _ => false
  end.

Definition text_ext (key : str) : str :=
  if endswith key (slit "_xml") || is_xml_name key then slit "xml" else slit "txt".

(** One turn of the loop over [metadata.items()]. *)
Definition save_field (output_dir : str) (key : str) (val : json)
    (fs : filesystem) (remaining : dict) : result (filesystem * dict) :=
  match val with
  | JNull => Ok (fs, remaining)
  | _ =>
      match try_base64 output_dir key val fs with
      | Some fs' => Ok (fs', remaining)
      | None =>
          match val with
          | JStr s =>
              if is_long_text key val then
                match write_text (path_join output_dir (key ++ slit "." ++ text_ext key)) s fs with
                | Some fs' => Ok (fs', remaining)
                | None => Crash
                end
              else Ok (fs, dict_set remaining key val)
          | _ => Ok (fs, dict_set remaining key val)
          end
      end
  end.

Fixpoint save_fields (output_dir : str) (items : dict) (fs : filesystem)
    (remaining : dict) : result (filesystem * dict) :=
  match items with
  | [] => Ok (fs, remaining)
  | (key, val) :: items' =>
      match save_field output_dir key val fs remaining with
      | Ok (fs', remaining') => save_fields output_dir items' fs' remaining'
      | Crash => Crash
      end
  end.

(** [os.makedirs(output_dir, exist_ok=True)] *)
Definition makedirs (p : str) (fs : filesystem) : result filesystem :=
  if makedirs_ok p then Ok (mkFs ({[p]} ∪ fs_dirs fs) (fs_files fs)) else Crash.

(** Lines 266-268. *)
Definition dump_json (path : str) (d : dict) (fs : filesystem) : result filesystem :=
  if openable path && dict_encodable d then Ok (put path (FJson d) fs) else Crash.

Definition save_metadata_files (metadata : dict) (output_dir : str)
    (fs : filesystem) : result filesystem :=
  match makedirs output_dir fs with
  | Crash => Crash
  | Ok fs0 =>
      match save_fields output_dir metadata fs0 [] with
      | Crash => Crash
      | Ok (fs1, remaining) =>
          dump_json (path_join output_dir (slit "metadata.json")) remaining fs1
      end
  end.
End Writer.

(** ** Scanner, fallback and parser: [quick_extract_tags] *)

Section Pipeline.
Context {env : Env}.

(** Lines 76-81. *)
Definition legacy_candidate (data : bytes) : option bytes :=
  let null_pos := bytes_find data [x00] 0 in
  if negb (null_pos =? -1) then Some (slice data 0 null_pos)
  else
    let dn_pos := bytes_find data [x0a; x0a] 0 in
    if negb (dn_pos =? -1) then Some (slice data 0 dn_pos) else None.

(** Lines 82-86: everything from the first opening brace of a non-empty
    candidate, balance unchecked. *)
Definition legacy_json_bytes (data : bytes) : option bytes :=
  match legacy_candidate data with
  | Some ((_ :: _) as candidate) =>
      let start := bytes_find candidate [x7b] 0 in
      if negb (start =? -1) then Some (drop (Z.to_nat start) candidate) else None
  | _ => None
  end.

(** Lines 93-104: strict UTF-8, then the lossy decode; [None] when
    [json.loads] raises. *)
Definition parse_metadata (json_bytes : bytes) : option dict :=
  match utf8_decode json_bytes with
  | Some text => json_loads text
  | None => json_loads (decode_replace json_bytes)
  end.

(** [len(v)] is defined. *)
Definition sized (v : json) : bool :=
  match v with
  | JStr _ | JList _ | JObject _ => true
  | _ => false
  end.

(** [file] is the content of [px4_file], [None] when the file does not
    exist.  The result is the returned value; line 135 raises
    [TypeError] when [airframe_xml] holds a value without length. *)
Definition quick_extract_tags (file : option bytes) : result (option dict) :=
  match file with
  | None => Ok None
  | Some data =>
      let json_bytes :=
        match find_json_bytes data None with
        | Some j => Some j
        | None => legacy_json_bytes data
        end in
      match json_bytes with
      | None | Some [] => Ok None
      | Some jb =>
          match parse_metadata jb with
          | None => Ok None
          | Some metadata =>
              match dict_get metadata (slit "airframe_xml") with
              | Some v => if sized v then Ok (Some metadata) else Crash
              | None => Ok (Some metadata)
              end
          end
      end
  end.

(** Lines 280-282. *)
Definition main (file : option bytes) (fs : filesystem) : result filesystem :=
  match quick_extract_tags file with
  | Crash => Crash
  | Ok None => Ok fs
  | Ok (Some []) => Ok fs
  | Ok (Some metadata) => save_metadata_files metadata (slit "extracted") fs
  end.
End Pipeline.

(** ** A concrete environment

    The library calls as finite tables over streams produced by the real
    libraries (outside the tables they raise), a lossy decoder that
    replaces every byte above 0x7F, and an operating system where every
    directory can be made and every file opened.  It serves to run the
    model on concrete inputs; the theorems hold for every [Env]. *)

(** [gzip.compress(b'HELLO', mtime=0)] *)
Definition gz_hello : bytes :=
  [x1f; x8b; x08; x00; x00; x00; x00; x00; x02; x03; xf3; x70;
   xf5; xf1; xf1; x07; x00; x36; x64; x44; xc1; x05; x00; x00;
   x00].

(** [zlib.compress(b'HELLO')] *)
Definition zlib_hello : bytes :=
  [x78; x9c; xf3; x70; xf5; xf1; xf1; x07; x00; x04; x4c; x01;
   x75].

(** A zip archive with the single stored entry [a.txt] holding [HELLO]. *)
Definition zip_hello : bytes :=
  [x50; x4b; x03; x04; x14; x00; x00; x00; x00; x00; x00; x00;
   x21; x00; x36; x64; x44; xc1; x05; x00; x00; x00; x05; x00;
   x00; x00; x05; x00; x00; x00; x61; x2e; x74; x78; x74; x48;
   x45; x4c; x4c; x4f; x50; x4b; x01; x02; x14; x03; x14; x00;
   x00; x00; x00; x00; x00; x00; x21; x00; x36; x64; x44; xc1;
   x05; x00; x00; x00; x05; x00; x00; x00; x05; x00; x00; x00;
   x00; x00; x00; x00; x00; x00; x00; x00; x80; x01; x00; x00;
   x00; x00; x61; x2e; x74; x78; x74; x50; x4b; x05; x06; x00;
   x00; x00; x00; x01; x00; x01; x00; x33; x00; x00; x00; x28;
   x00; x00; x00; x00; x00].

(** A gzip stream of [HELLO] that carries the name of the compressed file
    in its header, as [GzipFile(filename=..., mtime=0)] writes it. *)
Definition gz_hello_named : bytes :=
  [x1f; x8b; x08; x08; x00; x00; x00; x00; x02; xff; x70; x78;
   x34; x66; x6d; x75; x2d; x76; x35; x5f; x64; x65; x66; x61;
   x75; x6c; x74; x5f; x61; x69; x72; x66; x72; x61; x6d; x65;
   x5f; x68; x65; x6c; x6c; x6f; x5f; x6d; x65; x74; x61; x64;
   x61; x74; x61; x5f; x70; x61; x79; x6c; x6f; x61; x64; x2e;
   x74; x78; x74; x00; xf3; x70; xf5; xf1; xf1; x07; x00; x36;
   x64; x44; xc1; x05; x00; x00; x00].

(** A zlib stream of [HELLO] written by [zlib.compressobj()] with a sync
    and a full flush before the data and after each of its bytes. *)
Definition zlib_hello_flushed : bytes :=
  [x78; x9c; x00; x00; x00; xff; xff; x00; x00; x00; xff; xff;
   xf2; x00; x00; x00; x00; xff; xff; x00; x00; x00; xff; xff;
   x72; x05; x00; x00; x00; xff; xff; x00; x00; x00; xff; xff;
   xf2; x01; x00; x00; x00; xff; xff; x00; x00; x00; xff; xff;
   xf2; x01; x00; x00; x00; xff; xff; x00; x00; x00; xff; xff;
   xf2; x07; x00; x00; x00; xff; xff; x00; x00; x00; xff; xff;
   x03; x00; x04; x4c; x01; x75].

(** An airframe description and its [gzip.compress(xml_text, mtime=0)]. *)
Definition xml_text : bytes :=
  blit "<?xml version='1.0'?><airframes><airframe name='quad' id='4001'/><airframe name='hexa' id='6001'/></airframes>".

Definition gz_xml : bytes :=
  [x1f; x8b; x08; x00; x00; x00; x00; x00; x02; x03; xb3; xb1;
   xaf; xc8; xcd; x51; x28; x4b; x2d; x2a; xce; xcc; xcf; xb3;
   x55; x37; xd4; x33; x50; xb7; xb7; xb3; x49; xcc; x2c; x4a;
   x2b; x4a; xcc; x4d; x2d; x46; x30; x15; xf2; x80; x84; xad;
   x7a; x61; x69; x62; x8a; xba; x42; x66; x8a; xad; xba; x89;
   x81; x81; xa1; xba; x3e; x86; x82; x8c; xd4; x8a; x44; x88;
   x02; x33; xa8; x02; x7d; x84; x69; x00; xc2; x66; x90; xbc;
   x6e; x00; x00; x00].

Definition bytes_eqb (a b : bytes) : bool :=
  Nat.eqb (length a) (length b) && startswith a b.

Definition table_env : Env := {|
  gzip_decompress b :=
    if bytes_eqb b gz_hello then Some (blit "HELLO")
    else if bytes_eqb b gz_xml then Some xml_text
    else if bytes_eqb b gz_hello_named then Some (blit "HELLO")
    else None;
  zlib_decompress b :=
    if bytes_eqb b zlib_hello then Some (blit "HELLO")
    else if bytes_eqb b zlib_hello_flushed then Some (blit "HELLO")
    else None;
  archive := list (str * bytes);
  ZipFile b := if bytes_eqb b zip_hello then Some [(slit "a.txt", blit "HELLO")] else None;
  namelist z := map fst z;
  zip_read z name := snd <$> find (fun e => bool_decide (fst e = name)) z;
  json_loads s :=
    if bool_decide (s = ascii_str (jlit "{}")) then Some []
    else if bool_decide (s = ascii_str (jlit "{'board_id':9,'description':'x'}"))
    then Some [(slit "board_id", JInt 9); (slit "description", JStr (slit "x"))]
    else None;
  decode_replace b := map (fun c => if (Byte.to_N c <? 0x80)%N then Byte.to_N c else 0xFFFD%N) b;
  makedirs_ok _ := true;
  openable _ := true
|}.

(** The two sample buffers of the specification. *)
Definition nested_object : bytes := jlit "{'a':1,'b':{'c':2}}".
Definition escaped_object : bytes := jlit "{'a':'va\'lue'}".

Definition empty_fs : filesystem := mkFs ∅ ∅.

(** Sample inputs: an 80-byte payload, 101 and 201 letters A (a count of
    sextets that no base64 text has), and two small metadata objects. *)
Definition binarydata_x8 : bytes :=
  blit "BINARYDATABINARYDATABINARYDATABINARYDATABINARYDATABINARYDATABINARYDATABINARYDATA".


Definition image_object (payload : bytes) : dict :=
  [(slit "board_id", JInt 9);
   (slit "image", JStr (ascii_str (b64encode payload)));
   (slit "description", JStr (slit "x"))].

Definition board_object : dict :=
  [(slit "board_id", JInt 9); (slit "description", JStr (slit "x"))].

Definition null_object : dict :=
  [(slit "board_id", JInt 9); (slit "git_hash", JNull);
   (slit "description", JStr (slit "x"))].

(** ** The vocabulary of the specification *)

(** The base64 alphabet with its pad, and the line breaks the classifier
    lets through. *)
Definition base64_chars : str :=
  slit "ABCDEFGHIJKLMNOPQRSTUVWXYZabcdefghijklmnopqrstuvwxyz0123456789+/=".
Definition line_breaks : str := [10%N; 13%N].

(** Binary-candidate in the words of the specification: a string, longer
    than 100, every character in the alphabet or a line break. *)
Definition spec_binary_candidate (val : json) : Prop :=
  exists s, val = JStr s /\ 100 < len s
    /\ Forall (fun c => c ∈ base64_chars \/ c ∈ line_breaks) s.

(** Scalar in the words of the specification: neither binary-candidate nor
    long-text. *)
Definition spec_scalar (key : str) (val : json) : bool :=
  negb (is_b64_candidate val) && negb (is_long_text key val).


(** Every byte, to settle facts about one or two bytes by enumeration. *)
Definition all_bytes : bytes := u8 <$> (N.of_nat <$> seq 0 256).

(** The four sextets of a group of three bytes. *)
Definition sx1 (b1 : byte) : N := N.shiftr (Byte.to_N b1) 2.
Definition sx2 (b1 b2 : byte) : N :=
  N.lor (N.shiftl (N.land (Byte.to_N b1) 0x03) 4) (N.shiftr (Byte.to_N b2) 4).
Definition sx3 (b2 b3 : byte) : N :=
  N.lor (N.shiftl (N.land (Byte.to_N b2) 0x0F) 2) (N.shiftr (Byte.to_N b3) 6).
Definition sx4 (b3 : byte) : N := N.land (Byte.to_N b3) 0x3F.

(** [c] is an alphabet byte of sextet [v]. *)
Definition decodes (c : byte) (v : N) : Prop :=
  Byte.eqb c x3d = false /\ b64_value c = Some v.

#[global] Instance decodes_dec c v : Decision (decodes c v).
Proof. unfold decodes. apply _. Defined.

(** A code point that UTF-8 can carry. *)
Definition char_ok (c : N) : Prop :=
  (c < 0x110000)%N /\ between 0xD800 0xDFFF c = false.

(** The files a run writes, applied in order. *)
Definition puts (ws : list (str * content)) (fs : filesystem) : filesystem :=
  foldl (fun fs w => put (fst w) (snd w) fs) fs ws.

(** The last content a list of writes gives a path. *)
Fixpoint last_write (ws : list (str * content)) (k : str) : option content :=
  match ws with
  | [] => None
  | (p, c) :: ws' =>
      match last_write ws' k with
      | Some c' => Some c'
      | None => if bool_decide (p = k) then Some c else None
      end
  end.

Definition is_null (val : json) : bool :=
  match val with JNull => true | _ => false end.

(** The field goes to the aggregate record: it is not null, lines 160-251
    did not write it, and it is not a long text. *)
Definition kept {env : Env} (output_dir : str) (kv : str * json) : bool :=
  negb (is_null (snd kv))
  && match try_base64 output_dir (fst kv) (snd kv) empty_fs with
     | Some _ => false
     | None => true
     end
  && negb (is_long_text (fst kv) (snd kv)).

(** [os.makedirs] seen as a change of the file system. *)
Definition mkdir (p : str) (fs : filesystem) : filesystem :=
  mkFs ({[p]} ∪ fs_dirs fs) (fs_files fs).

(** A step that either raises whatever the file system holds, or writes
    one file whatever it holds. *)
Definition guarded_put (f : filesystem -> option filesystem) : Prop :=
  (forall fs, f fs = None) \/ (exists p c, forall fs, f fs = Some (put p c fs)).

(** The aggregate record after the loop has gone through [items]. *)
Definition collect {env : Env} (output_dir : str) (remaining items : dict) : dict :=
  foldl (fun r kv => if kept output_dir kv then dict_set r (fst kv) (snd kv) else r)
    remaining items.

(** The ScanState invariant at one turn of the inner loop: the depth is
    not negative and moves only outside a string, [in_str] flips only on a
    quote with no escape pending, [escape] is set exactly by a backslash
    read inside a string with no escape pending, and the byte after it
    changes nothing else. *)
Definition turn_ok (t : ScanState * byte * walk_step) : Prop :=
  let '(st, ch, r) := t in
  0 <= depth st
  /\ (in_str st = false -> escape st = false)
  /\ match r with
     | Return => in_str st = false /\ ch = x7d /\ depth st = 1
     | Continue st' =>
         (depth st' <> depth st -> in_str st = false /\ (ch = x7b \/ ch = x7d))
         /\ (in_str st' <> in_str st -> ch = x22 /\ escape st = false)
         /\ (escape st' = true <-> in_str st = true /\ escape st = false /\ ch = x5c)
         /\ (escape st = true ->
             escape st' = false /\ in_str st' = in_str st /\ depth st' = depth st)
     end.

(** Settling a statement about one or two bytes by running through
    [all_bytes]; [lem] is [all_bytes_1] or [all_bytes_2]. *)
Ltac by_enumeration lem :=
  apply lem; apply (bool_decide_unpack _); vm_compute; exact I.

(** The candidate at index [s] closes at index [i]: an opening brace
    stands at [s] and the inner loop started there returns at [i]. *)
Definition closes (data : bytes) (max_search_len : option Z) (s i : Z) : Prop :=
  0 <= s
  /\ data !! Z.to_nat s = Some x7b
  /\ walk (slice data s (scan_limit data max_search_len s)) scan_init s = Some i.

(** [table_env] with a parser that also knows two objects whose
    [airframe_xml] member is a number and a string. *)
Definition airframe_env : Env := {|
  gzip_decompress := @gzip_decompress table_env;
  zlib_decompress := @zlib_decompress table_env;
  archive := @archive table_env;
  ZipFile := @ZipFile table_env;
  namelist := @namelist table_env;
  zip_read := @zip_read table_env;
  json_loads s :=
    if bool_decide (s = ascii_str (jlit "{'airframe_xml':7}"))
    then Some [(slit "airframe_xml", JInt 7)]
    else if bool_decide (s = ascii_str (jlit "{'airframe_xml':'<a/>'}"))
    then Some [(slit "airframe_xml", JStr (slit "<a/>"))]
    else @json_loads table_env s;
  decode_replace := @decode_replace table_env;
  makedirs_ok := @makedirs_ok table_env;
  openable := @openable table_env
|}.

(** More sample inputs: the base64 text of [binarydata_x8] broken into
    lines, a text with a lone surrogate, and small metadata objects. *)
Definition wrapped_image : str :=
  take 76 (ascii_str (b64encode binarydata_x8)) ++ [13%N; 10%N]
  ++ drop 76 (ascii_str (b64encode binarydata_x8)) ++ [10%N].

Definition surrogate_text : str := slit "bad " ++ [0xD800%N].

Definition two_binaries : dict :=
  [(slit "image", JStr (ascii_str (b64encode binarydata_x8)));
   (slit "firmware", JStr (ascii_str (b64encode gz_xml)))].



(** * Properties *)

(** ** Bytes *)

Lemma byte_eqb_eq (a b : byte) : Byte.eqb a b = true <-> a = b.
Proof. split; [apply Byte.byte_dec_bl | apply Byte.byte_dec_lb]. Qed.

Lemma byte_eqb_neq (a b : byte) : Byte.eqb a b = false <-> a <> b.
Proof.
  split; [apply Byte.eqb_false |].
  intros Hne. destruct (Byte.eqb a b) eqn:E; [|done].
  by apply byte_eqb_eq in E.
Qed.

Lemma len_app {A} (l k : list A) : len (l ++ k) = len l + len k.
Proof. unfold len. rewrite length_app. lia. Qed.

Lemma len_nonneg {A} (l : list A) : 0 <= len l.
Proof. unfold len. lia. Qed.

Lemma find_at_range (sub rest : bytes) (i : Z) :
  sub <> [] ->
  find_at sub rest i = -1 \/ i <= find_at sub rest i < i + len rest.
Proof.
  intros Hsub. revert i. induction rest as [|c rest IH]; intros i; simpl.
  - destruct sub; [done|]. simpl. by left.
  - destruct (startswith sub (c :: rest)).
    + right. unfold len. simpl. lia.
    + destruct (IH (i + 1)) as [->|Hr]; [by left|].
      right. unfold len in *. simpl. lia.
Qed.

Lemma bytes_find_range (data sub : bytes) (start : Z) :
  sub <> [] -> 0 <= start ->
  bytes_find data sub start = -1 \/ start <= bytes_find data sub start < len data.
Proof.
  intros Hsub Hs. unfold bytes_find.
  destruct (find_at_range sub (drop (Z.to_nat start) data) start Hsub) as [->|Hr];
    [by left|].
  right. unfold len in *. rewrite length_drop in Hr. lia.
Qed.

Lemma find_at_skip (noise rest : bytes) (i : Z) :
  x7b ∉ noise ->
  find_at [x7b] (noise ++ x7b :: rest) i = i + len noise.
Proof.
  revert i. induction noise as [|c noise IH]; intros i Hnot; simpl.
  - unfold len. simpl. lia.
  - apply not_elem_of_cons in Hnot as [Hc Hn].
    assert (Byte.eqb x7b c = false) as -> by by apply byte_eqb_neq.
    simpl. rewrite IH by done. unfold len. simpl. lia.
Qed.

(** ** The scanner *)

(** The outer loop never runs out of fuel. *)
Lemma scan_candidates_fuel (fuel : nat) (data : bytes) (m : option Z) (start : Z) :
  start = -1 \/ (0 <= start < len data /\ len data - start <= Z.of_nat fuel) ->
  is_Some (scan_candidates fuel data m start).
Proof.
  revert start. induction fuel as [|fuel IH]; intros start Hs; simpl.
  - destruct Hs as [->|[? ?]]; [by eexists | lia].
  - destruct (start =? -1) eqn:E; [by eexists|].
    apply Z.eqb_neq in E. destruct Hs as [?|[Hr Hf]]; [done|].
    destruct (walk _ _ _); [by eexists|].
    apply IH.
    destruct (bytes_find_range data [x7b] (start + 1)) as [->|Hn];
      [done | lia | by left | right; lia].
Qed.

Lemma find_json_bytes_fuel (data : bytes) (m : option Z) :
  scan_candidates (S (length data)) data m (bytes_find data [x7b] 0)
  = Some (find_json_bytes data m).
Proof.
  unfold find_json_bytes.
  destruct (scan_candidates_fuel (S (length data)) data m (bytes_find data [x7b] 0))
    as [r Hr]; [|by rewrite Hr].
  destruct (bytes_find_range data [x7b] 0) as [->|Hn]; [done | lia | by left |].
  right. unfold len in *. lia.
Qed.

Lemma walk_shift (window : bytes) (st : ScanState) (i : Z) :
  walk window st i = Z.add i <$> walk window st 0.
Proof.
  revert st i. induction window as [|ch rest IH]; intros st i; simpl; [done|].
  destruct (scan_step st ch) as [st'|]; simpl; [|f_equal; lia].
  rewrite (IH st' (i + 1)), (IH st' (0 + 1)).
  destruct (walk rest st' 0); simpl; [f_equal; lia | done].
Qed.

Lemma walk_app (w w' : bytes) (st : ScanState) (i j : Z) :
  walk w st i = Some j -> walk (w ++ w') st i = Some j.
Proof.
  revert st i. induction w as [|ch rest IH]; intros st i; simpl; [done|].
  destruct (scan_step st ch); [apply IH | done].
Qed.

Lemma scan_candidates_S (fuel : nat) (data : bytes) (m : option Z) (start : Z) :
  start <> -1 ->
  scan_candidates (S fuel) data m start
  = match walk (slice data start (scan_limit data m start)) scan_init start with
    | Some i => Some (Some (slice data start (i + 1)))
    | None => scan_candidates fuel data m (bytes_find data [x7b] (start + 1))
    end.
Proof. intros Hne. simpl. by apply Z.eqb_neq in Hne as ->. Qed.

Lemma slice_after (pre : bytes) (obj rest : bytes) (hi : Z) :
  len pre + len obj <= hi ->
  slice (pre ++ obj ++ rest) (len pre) hi
  = obj ++ take (Z.to_nat (hi - len pre - len obj)) rest.
Proof.
  intros Hhi. unfold slice, len in *. rewrite Nat2Z.id, drop_app_length.
  rewrite take_app. rewrite take_ge by lia. f_equal. f_equal. lia.
Qed.

Lemma slice_exact (pre : bytes) (obj rest : bytes) :
  slice (pre ++ obj ++ rest) (len pre) (len pre + len obj) = obj.
Proof.
  rewrite slice_after by lia.
  replace (len pre + len obj - len pre - len obj) with 0 by lia.
  simpl. by rewrite take_0, app_nil_r.
Qed.

(** C5 (as amended): when the leading noise holds no opening brace, the
    scanner applied to [noise1 ++ nested_object ++ noise2] returns
    exactly the inner object, whatever the trailing noise and for every
    scan-length limit that covers the object. *)
Theorem scanner_returns_nested_object (noise1 noise2 : bytes) (m : option Z) :
  x7b ∉ noise1 ->
  (forall k, m = Some k -> 19 <= k) ->
  find_json_bytes (noise1 ++ nested_object ++ noise2) m = Some nested_object.
Proof.
  intros Hnoise Hm. apply (inj Some). rewrite <- find_json_bytes_fuel.
  set (data := noise1 ++ nested_object ++ noise2).
  assert (bytes_find data [x7b] 0 = len noise1) as ->.
  { unfold bytes_find, data. change (Z.to_nat 0) with 0%nat. rewrite drop_0.
    change (nested_object ++ noise2) with (x7b :: tail nested_object ++ noise2).
    rewrite find_at_skip by done. lia. }
  pose proof (len_nonneg noise1) as Hn1.
  rewrite scan_candidates_S by lia.
  assert (len noise1 + len nested_object <= scan_limit data m (len noise1)) as Hlim.
  { unfold scan_limit, data. rewrite !len_app.
    pose proof (len_nonneg noise2).
    destruct m as [k|]; [|lia].
    specialize (Hm k eq_refl). change (len nested_object) with 19. lia. }
  unfold data at 1. rewrite slice_after by done.
  rewrite (walk_app _ _ _ _ (len noise1 + 18)).
  - replace (len noise1 + 18 + 1) with (len noise1 + len nested_object)
      by (change (len nested_object) with 19; lia).
    unfold data. by rewrite slice_exact.
  - rewrite walk_shift. by vm_compute walk.
Qed.

Lemma scanner_returns_nested_object_witness :
  find_json_bytes (blit "PX4}" ++ nested_object ++ blit "{{fw") (Some 19)
  = Some nested_object.
Proof.
  apply scanner_returns_nested_object.
  - apply (bool_decide_unpack _). vm_compute. exact I.
  - intros k [= <-]. lia.
Defined.

(** C5 as stated fails: noise that itself holds a balanced pair of braces
    is what the scanner returns. *)
Lemma scanner_noise_counterexample :
  find_json_bytes (blit "{}" ++ nested_object ++ blit "{}") None = Some (blit "{}")
  /\ find_json_bytes (blit "{}" ++ nested_object ++ blit "{}") None
     <> Some nested_object.
Proof. split; [reflexivity | discriminate]. Qed.

Lemma scan_step_turn_ok (st : ScanState) (ch : byte) :
  0 <= depth st ->
  (in_str st = false -> escape st = false) ->
  turn_ok (st, ch, scan_step st ch).
Proof.
  intros Hd He. destruct st as [d s e]. simpl in *. unfold scan_step. simpl.
  destruct s; simpl.
  - destruct e; simpl; [intuition congruence|].
    destruct (Byte.eqb ch x5c) eqn:E5; simpl.
    { apply byte_eqb_eq in E5. intuition congruence. }
    apply byte_eqb_neq in E5.
    destruct (Byte.eqb ch x22) eqn:E2; simpl.
    { apply byte_eqb_eq in E2. intuition congruence. }
    intuition congruence.
  - rewrite He by done.
    destruct (Byte.eqb ch x22) eqn:E2; simpl.
    { apply byte_eqb_eq in E2. intuition congruence. }
    destruct (Byte.eqb ch x7b) eqn:E7; simpl.
    { apply byte_eqb_eq in E7. intuition (try congruence; try lia). }
    destruct (Byte.eqb ch x7d) eqn:Ed; simpl.
    { apply byte_eqb_eq in Ed.
      destruct (d - 1 =? 0) eqn:E0; simpl.
      - apply Z.eqb_eq in E0. intuition (try congruence; try lia).
      - intuition (try congruence; try lia). }
    intuition congruence.
Qed.

(** Inside an object the depth stays positive until the walk returns. *)
Lemma scan_step_positive (st st' : ScanState) (ch : byte) :
  1 <= depth st ->
  (in_str st = false -> escape st = false) ->
  scan_step st ch = Continue st' ->
  1 <= depth st' /\ (in_str st' = false -> escape st' = false).
Proof.
  intros Hd He. destruct st as [d s e]. simpl in *. unfold scan_step. simpl.
  destruct s; simpl.
  - destruct e; [intros [= <-]; simpl; by auto|].
    destruct (Byte.eqb ch x5c); [intros [= <-]; simpl; by auto|].
    destruct (Byte.eqb ch x22); intros [= <-]; simpl; by auto.
  - rewrite He by done.
    destruct (Byte.eqb ch x22); [intros [= <-]; simpl; by auto|].
    destruct (Byte.eqb ch x7b); [intros [= <-]; simpl; split; [lia | done]|].
    destruct (Byte.eqb ch x7d).
    + destruct (d - 1 =? 0) eqn:E0; [done|].
      apply Z.eqb_neq in E0. intros [= <-]. simpl. split; [lia | done].
    + intros [= <-]. simpl. by auto.
Qed.

Lemma walk_trace_positive (window : bytes) (st : ScanState) :
  1 <= depth st ->
  (in_str st = false -> escape st = false) ->
  Forall turn_ok (walk_trace window st).
Proof.
  revert st. induction window as [|ch rest IH]; intros st Hd He; simpl; [constructor|].
  constructor; [apply scan_step_turn_ok; [lia | done]|].
  destruct (scan_step st ch) as [st'|] eqn:E; [|constructor].
  destruct (scan_step_positive st st' ch Hd He E). by apply IH.
Qed.

(** The walk returns exactly when the last turn of its trace does. *)
Lemma walk_trace_walk (window : bytes) (st : ScanState) (i : Z) :
  walk window st i
  = match last (walk_trace window st) with
    | Some (_, _, Return) => Some (i + len (walk_trace window st) - 1)
    | _ => None
    end.
Proof.
  revert st i. induction window as [|ch rest IH]; intros st i; simpl; [done|].
  destruct (scan_step st ch) as [st'|] eqn:E; simpl.
  - rewrite IH. destruct (walk_trace rest st') as [|t ts] eqn:Et; simpl.
    + done.
    + change (last (_ :: t :: ts)) with (last (t :: ts)).
      destruct (last (t :: ts)) as [[[? ?] [?|]]|]; try done.
      f_equal. unfold len. simpl. lia.
  - f_equal. unfold len. simpl. lia.
Qed.

(** C6: in every walk from a candidate opening brace, at every turn, the
    depth is not negative and changes only outside a string, [in_str]
    changes only on a double quote that is not escaped, and [escape] is
    set exactly by a backslash read inside a string with no escape pending
    and is cleared by the next byte whatever it is; on
    [escaped_object] the escaped quote (index 9) is read inside the string
    and leaves it open, and the scanner returns the whole object. *)
Theorem scan_state_invariant (data : bytes) (m : option Z) (start : Z) :
  0 <= start ->
  data !! Z.to_nat start = Some x7b ->
  Forall turn_ok (walk_trace (slice data start (scan_limit data m start)) scan_init)
  /\ walk_trace escaped_object scan_init !! 9%nat
     = Some (mkScan 1 true true, x22, Continue (mkScan 1 true false))
  /\ find_json_bytes escaped_object None = Some escaped_object.
Proof.
  intros Hs Hat. split; [|split; reflexivity].
  unfold slice. apply drop_S in Hat. rewrite Hat.
  destruct (Z.to_nat (scan_limit data m start - start)) as [|n]; simpl;
    [constructor|].
  constructor.
  - apply scan_step_turn_ok; simpl; [lia | done].
  - apply walk_trace_positive; simpl; [lia | done].
Qed.

Lemma scan_state_invariant_witness :
  Forall turn_ok
    (walk_trace (slice escaped_object 0 (scan_limit escaped_object None 0)) scan_init)
  /\ walk_trace escaped_object scan_init !! 9%nat
     = Some (mkScan 1 true true, x22, Continue (mkScan 1 true false))
  /\ find_json_bytes escaped_object None = Some escaped_object.
Proof. apply scan_state_invariant; [lia | reflexivity]. Defined.

(** ** The classifier *)

Lemma class_star_dollar_intro (s : str) :
  forallb in_class s = true -> class_star_dollar s = true.
Proof.
  induction s as [|c r IH]; simpl; [done|].
  intros [Hc Hr]%andb_true_iff. rewrite Hc, IH by done. apply orb_true_r.
Qed.

Lemma at_dollar_inv (s : str) : at_dollar s = true -> s = [] \/ s = [10%N].
Proof. unfold at_dollar. repeat case_match; naive_solver. Qed.

Lemma class_star_dollar_elim (s : str) :
  class_star_dollar s = true -> forallb in_class s = true.
Proof.
  induction s as [|c r IH]; [done|].
  simpl class_star_dollar. intros [Hd|[Hc Hr]%andb_true_iff]%orb_true_iff.
  - by destruct (at_dollar_inv (c :: r) Hd) as [?|[= -> ->]].
  - simpl. by rewrite Hc, IH.
Qed.

(** The pattern matches exactly the non-empty strings over its class: the
    newline that [$] lets pass is in the class anyway. *)
Lemma b64_re_match_spec (s : str) :
  b64_re_match s = true <-> s <> [] /\ forallb in_class s = true.
Proof.
  destruct s as [|c r]; simpl; [by intuition|].
  rewrite andb_true_iff. split.
  - intros [Hc Hr]. split; [done|]. by rewrite Hc, class_star_dollar_elim.
  - intros [_ [Hc Hr]%andb_true_iff]. by rewrite Hc, class_star_dollar_intro.
Qed.

Lemma in_class_bound (c : N) : in_class c = true -> (c < 123)%N.
Proof.
  unfold in_class, between.
  rewrite !orb_true_iff, !andb_true_iff, !N.leb_le, !N.eqb_eq. lia.
Qed.

Lemma in_class_spec (c : N) :
  in_class c = true <-> c ∈ base64_chars \/ c ∈ line_breaks.
Proof.
  rewrite <- elem_of_app. split.
  - intros Hc.
    assert (Forall (fun c => in_class c = true -> c ∈ base64_chars ++ line_breaks)
              (N.of_nat <$> seq 0 123)) as Hall
      by (apply (bool_decide_unpack _); vm_compute; exact I).
    rewrite Forall_forall in Hall. apply Hall; [|done].
    apply list_elem_of_fmap. exists (N.to_nat c). split; [lia|].
    apply elem_of_seq. pose proof (in_class_bound c Hc). lia.
  - assert (Forall (fun c => in_class c = true) (base64_chars ++ line_breaks)) as Hall
      by (apply (bool_decide_unpack _); vm_compute; exact I).
    rewrite Forall_forall in Hall. apply Hall.
Qed.

Lemma forallb_in_class (s : str) :
  forallb in_class s = true
  <-> Forall (fun c => c ∈ base64_chars \/ c ∈ line_breaks) s.
Proof.
  rewrite forallb_forall, Forall_forall. split; intros Hs c Hc.
  - apply in_class_spec, Hs. by apply list_elem_of_In.
  - apply in_class_spec, Hs. by apply list_elem_of_In.
Qed.

(** C8: the test of line 160 holds exactly for the strings longer than 100
    whose characters are all in the base64 alphabet (pad included) or line
    breaks; every 300-character string over the alphabet passes it and no
    50-character string does. *)
Theorem binary_candidate_iff (val : json) :
  (is_b64_candidate val = true <-> spec_binary_candidate val)
  /\ (forall s, length s = 300%nat -> Forall (fun c => c ∈ base64_chars) s ->
        is_b64_candidate (JStr s) = true)
  /\ (forall s, length s = 50%nat -> is_b64_candidate (JStr s) = false).
Proof.
  assert (forall s, is_b64_candidate (JStr s) = true
            <-> 100 < len s /\ Forall (fun c => c ∈ base64_chars \/ c ∈ line_breaks) s)
    as Hstr.
  { intros s. simpl. rewrite andb_true_iff, Z.ltb_lt, b64_re_match_spec.
    rewrite forallb_in_class. split; [tauto|].
    intros [Hl Hs]. split; [done|]. split; [|done].
    intros ->. unfold len in Hl. simpl in Hl. lia. }
  split; [|split].
  - split.
    + destruct val; try done. intros Hc%Hstr. by eexists.
    + intros (s & -> & Hs). by apply Hstr.
  - intros s Hl Hs. apply Hstr. split; [unfold len; lia|].
    eapply Forall_impl; [exact Hs|]. by left.
  - intros s Hl. simpl. apply andb_false_iff. left. apply Z.ltb_ge.
    unfold len. lia.
Qed.

Lemma binary_candidate_iff_witness :
  is_b64_candidate (JStr (repeat 65%N 300)) = true
  /\ is_b64_candidate (JStr (repeat 65%N 50)) = false.
Proof.
  destruct (binary_candidate_iff JNull) as (_ & Hlong & Hshort). split.
  - apply Hlong; [reflexivity|]. apply (bool_decide_unpack _). vm_compute. exact I.
  - apply Hshort. reflexivity.
Defined.

(** ** base64 *)

Lemma u8_to_N (b : byte) : u8 (Byte.to_N b) = b.
Proof.
  unfold u8. pose proof (Byte.to_N_bounded b).
  rewrite N.mod_small by lia. by rewrite Byte.of_to_N.
Qed.

Lemma all_bytes_complete (b : byte) : b ∈ all_bytes.
Proof.
  unfold all_bytes. apply list_elem_of_fmap. exists (Byte.to_N b).
  split; [by rewrite u8_to_N|].
  apply list_elem_of_fmap. exists (N.to_nat (Byte.to_N b)). split; [lia|].
  apply elem_of_seq. pose proof (Byte.to_N_bounded b). lia.
Qed.

Lemma all_bytes_1 (P : byte -> Prop) :
  Forall P all_bytes -> forall a, P a.
Proof. rewrite Forall_forall. intros HP a. apply HP, all_bytes_complete. Qed.

Lemma all_bytes_2 (P : byte -> byte -> Prop) :
  Forall (fun a => Forall (P a) all_bytes) all_bytes -> forall a b, P a b.
Proof.
  intros HP a. apply all_bytes_1.
  revert a. apply all_bytes_1. exact HP.
Qed.

Lemma enc1_decodes : forall b1, decodes (enc1 b1) (sx1 b1).
Proof. by_enumeration all_bytes_1. Qed.

Lemma enc2_decodes : forall b1 b2, decodes (enc2 b1 b2) (sx2 b1 b2).
Proof. by_enumeration all_bytes_2. Qed.

Lemma enc3_decodes : forall b2 b3, decodes (enc3 b2 b3) (sx3 b2 b3).
Proof. by_enumeration all_bytes_2. Qed.

Lemma enc4_decodes : forall b3, decodes (enc4 b3) (sx4 b3).
Proof. by_enumeration all_bytes_1. Qed.

Lemma out1_byte : forall b1 b2,
  u8 (N.lor (N.shiftl (sx1 b1) 2) (N.shiftr (sx2 b1 b2) 4)) = b1.
Proof. by_enumeration all_bytes_2. Qed.

Lemma sx2_low : forall b1 b2, N.land (sx2 b1 b2) 0x0F = N.shiftr (Byte.to_N b2) 4.
Proof. by_enumeration all_bytes_2. Qed.

Lemma sx3_high : forall b2 b3, N.shiftr (sx3 b2 b3) 2 = N.land (Byte.to_N b2) 0x0F.
Proof. by_enumeration all_bytes_2. Qed.

Lemma nibbles_byte : forall b2,
  u8 (N.lor (N.shiftl (N.shiftr (Byte.to_N b2) 4) 4) (N.land (Byte.to_N b2) 0x0F)) = b2.
Proof. by_enumeration all_bytes_1. Qed.

Lemma out3_byte : forall b2 b3,
  u8 (N.lor (N.shiftl (N.land (sx3 b2 b3) 0x03) 6) (sx4 b3)) = b3.
Proof. by_enumeration all_bytes_2. Qed.

Lemma a2b_sextet (c : byte) (v : N) (rest : bytes) (quad_pos : nat) (l : N) (p : nat) :
  decodes c v ->
  a2b_base64 (c :: rest) quad_pos l p
  = match quad_pos with
    | 0%nat => a2b_base64 rest 1 v 0
    | 1%nat =>
        cons (u8 (N.lor (N.shiftl l 2) (N.shiftr v 4)))
          <$> a2b_base64 rest 2 (N.land v 0x0F) 0
    | 2%nat =>
        cons (u8 (N.lor (N.shiftl l 4) (N.shiftr v 2)))
          <$> a2b_base64 rest 3 (N.land v 0x03) 0
    | _ => cons (u8 (N.lor (N.shiftl l 6) v)) <$> a2b_base64 rest 0 0 0
    end.
Proof. intros [Hc Hv]. simpl. by rewrite Hc, Hv. Qed.

Lemma a2b_group (b1 b2 b3 : byte) (rest : bytes) :
  a2b_base64 (enc1 b1 :: enc2 b1 b2 :: enc3 b2 b3 :: enc4 b3 :: rest) 0 0 0
  = (fun r => b1 :: b2 :: b3 :: r) <$> a2b_base64 rest 0 0 0.
Proof.
  rewrite (a2b_sextet _ _ _ _ _ _ (enc1_decodes b1)).
  rewrite (a2b_sextet _ _ _ _ _ _ (enc2_decodes b1 b2)).
  rewrite (a2b_sextet _ _ _ _ _ _ (enc3_decodes b2 b3)).
  rewrite (a2b_sextet _ _ _ _ _ _ (enc4_decodes b3)).
  rewrite out1_byte, sx2_low, sx3_high, nibbles_byte, out3_byte.
  by destruct (a2b_base64 rest 0 0 0).
Qed.

Lemma list_ind3 {A} (P : list A -> Prop) :
  P [] -> (forall a, P [a]) -> (forall a b, P [a; b]) ->
  (forall a b c l, P l -> P (a :: b :: c :: l)) ->
  forall l, P l.
Proof.
  intros H0 H1 H2 H3. fix IH 1.
  intros [|a [|b [|c l]]];
    [exact H0 | exact (H1 a) | exact (H2 a b) | exact (H3 a b c l (IH l))].
Qed.

(** Decoding undoes the standard encoding. *)
Lemma b64decode_b64encode (p : bytes) : b64decode (b64encode p) = Some p.
Proof.
  unfold b64decode. induction p as [|b1|b1 b2|b1 b2 b3 p IH] using list_ind3.
  - done.
  - cbn [b64encode].
    rewrite (a2b_sextet _ _ _ _ _ _ (enc1_decodes b1)).
    rewrite (a2b_sextet _ _ _ _ _ _ (enc2_decodes b1 x00)).
    by rewrite out1_byte.
  - cbn [b64encode].
    rewrite (a2b_sextet _ _ _ _ _ _ (enc1_decodes b1)).
    rewrite (a2b_sextet _ _ _ _ _ _ (enc2_decodes b1 b2)).
    rewrite (a2b_sextet _ _ _ _ _ _ (enc3_decodes b2 x00)).
    by rewrite out1_byte, sx2_low, sx3_high, nibbles_byte.
  - cbn [b64encode]. by rewrite a2b_group, IH.
Qed.

Lemma b64encode_length (p : bytes) :
  len (b64encode p) = 4 * ((len p + 2) / 3).
Proof.
  induction p as [|b1|b1 b2|b1 b2 b3 p IH] using list_ind3; try done.
  cbn [b64encode]. unfold len in *. cbn [length].
  rewrite !Nat2Z.inj_succ, IH.
  replace (Z.succ (Z.succ (Z.succ (Z.of_nat (length p)))) + 2)
    with (Z.of_nat (length p) + 2 + 1 * 3) by lia.
  rewrite Z.div_add by lia. lia.
Qed.

Lemma b64_value_in_class : forall c,
  is_Some (b64_value c) -> in_class (Byte.to_N c) = true.
Proof.
  by_enumeration
    (all_bytes_1 (fun c => is_Some (b64_value c) -> in_class (Byte.to_N c) = true)).
Qed.

Lemma decodes_in_class (c : byte) (v : N) :
  decodes c v -> in_class (Byte.to_N c) = true.
Proof. intros [_ Hv]. apply b64_value_in_class. by eexists. Qed.

Lemma b64encode_in_class (p : bytes) :
  forallb in_class (ascii_str (b64encode p)) = true.
Proof.
  pose proof decodes_in_class as Hd.
  induction p as [|b1|b1 b2|b1 b2 b3 p IH] using list_ind3; [done|..];
    cbn [b64encode ascii_str map forallb];
    rewrite ?(Hd _ _ (enc1_decodes _)), ?(Hd _ _ (enc2_decodes _ _)),
      ?(Hd _ _ (enc3_decodes _ _)), ?(Hd _ _ (enc4_decodes _)); try done.
Qed.

(** A text over the class of the pattern is ASCII: its UTF-8 encoding is
    itself, byte for character. *)
Lemma utf8_encode_class (s : str) :
  forallb in_class s = true -> utf8_encode s = Some (u8 <$> s).
Proof.
  induction s as [|c s IH]; simpl; [done|].
  intros [Hc Hs]%andb_true_iff. rewrite IH by done.
  apply in_class_bound in Hc. unfold utf8_encode_char.
  by assert ((c <? 128)%N = true) as -> by (apply N.ltb_lt; lia).
Qed.

Lemma u8_ascii_str (b : bytes) : u8 <$> ascii_str b = b.
Proof.
  unfold ascii_str. induction b as [|c b IH]; [done|].
  cbn [map fmap list_fmap]. rewrite u8_to_N. f_equal. exact IH.
Qed.

(** ** UTF-8: what the strict decoder returns can be written back *)

Lemma lor_lt_pow2 (a b n : N) :
  (a < 2 ^ n -> b < 2 ^ n -> N.lor a b < 2 ^ n)%N.
Proof.
  intros Ha Hb. destruct (N.eq_dec (N.lor a b) 0%N) as [->|Hne].
  { apply N.neq_0_lt_0, N.pow_nonzero. lia. }
  apply N.log2_lt_pow2; [lia|]. rewrite N.log2_lor.
  assert (forall x, (x < 2 ^ n)%N -> N.lor a b <> 0%N -> (N.log2 x < n)%N) as Hlog.
  { intros x Hx _. destruct (N.eq_dec x 0%N) as [->|Hx0].
    - simpl. destruct (N.eq_dec n 0%N) as [->|]; [|lia].
      simpl in *. assert (a = 0%N) by lia. assert (b = 0%N) by lia. by subst.
    - apply N.log2_lt_pow2; lia. }
  apply N.max_lub_lt; by apply Hlog.
Qed.

Lemma utf8_encode_char_ok (c : N) : char_ok c -> is_Some (utf8_encode_char c).
Proof.
  intros [Hc Hs]. unfold utf8_encode_char. rewrite Hs.
  repeat case_match; try by eexists.
  rewrite N.ltb_ge in *. lia.
Qed.

Lemma encodable_Forall (s : str) : Forall char_ok s -> encodable s = true.
Proof.
  unfold encodable. induction 1 as [|c s Hc _ IH]; simpl; [done|].
  destruct (utf8_encode_char_ok c Hc) as [e ->].
  by destruct (utf8_encode s).
Qed.

Lemma cont_bits_bound (c : byte) : (cont_bits c < 2 ^ 6)%N.
Proof.
  unfold cont_bits. pose proof (N.land_le_r (Byte.to_N c) 63).
  change (2 ^ 6)%N with 64%N. lia.
Qed.

Lemma lead_bits_bound (n mask k w : N) :
  (mask * 2 ^ k < 2 ^ w)%N ->
  (N.shiftl (N.land n mask) k < 2 ^ w)%N.
Proof.
  intros Hm. rewrite N.shiftl_mul_pow2.
  pose proof (N.land_le_r n mask).
  eapply N.le_lt_trans; [|exact Hm]. by apply N.mul_le_mono_r.
Qed.

Lemma below_surrogates (c : N) : (c < 0x800)%N -> char_ok c.
Proof.
  intros Hc. split; [lia|]. unfold between.
  apply andb_false_iff. left. apply N.leb_gt. lia.
Qed.

Lemma utf8_decode_char_ok (b : bytes) (t : str) :
  utf8_decode b = Some t -> Forall char_ok t.
Proof.
  remember (length b) as n eqn:Hn. revert b t Hn.
  induction n as [n IH] using lt_wf_ind. intros b t -> Hdec.
  destruct b as [|b0 r0]; [by injection Hdec as <-|].
  cbn [utf8_decode] in Hdec.
  destruct (Byte.to_N b0 <? 128)%N eqn:E1.
  { destruct (utf8_decode r0) as [t0|] eqn:Et; [|done]. injection Hdec as <-.
    constructor.
    - apply below_surrogates. apply N.ltb_lt in E1. lia.
    - eapply IH; [|done|exact Et]. simpl. lia. }
  destruct (between 194 223 (Byte.to_N b0)).
  { destruct r0 as [|c1 r1]; [done|]. destruct (is_cont c1); [|done].
    destruct (utf8_decode r1) as [t0|] eqn:Et; [|done]. injection Hdec as <-.
    constructor.
    - apply below_surrogates. change 2048%N with (2 ^ 11)%N.
      apply lor_lt_pow2; [by apply lead_bits_bound|].
      pose proof (cont_bits_bound c1). change (2 ^ 11)%N with 2048%N.
      change (2 ^ 6)%N with 64%N in *. lia.
    - eapply IH; [|done|exact Et]. simpl. lia. }
  destruct (between 224 239 (Byte.to_N b0)).
  { destruct r0 as [|c1 [|c2 r2]]; [done..|].
    match type of Hdec with (if ?c then _ else _) = _ => destruct c eqn:Ec end;
      [|done].
    destruct (utf8_decode r2) as [t0|] eqn:Et; [|done]. injection Hdec as <-.
    apply andb_true_iff in Ec as [_ Hsur]. apply negb_true_iff in Hsur.
    constructor.
    - split; [|done].
      assert (forall x, (x < 2 ^ 16 -> x < 1114112)%N) as Hw
        by (intros x; change (2 ^ 16)%N with 65536%N; lia).
      apply Hw. pose proof (cont_bits_bound c1). pose proof (cont_bits_bound c2).
      apply lor_lt_pow2; [by apply lead_bits_bound|].
      apply lor_lt_pow2.
      + rewrite N.shiftl_mul_pow2. change (2 ^ 16)%N with 65536%N.
        change (2 ^ 6)%N with 64%N in *. lia.
      + change (2 ^ 16)%N with 65536%N. change (2 ^ 6)%N with 64%N in *. lia.
    - eapply IH; [|done|exact Et]. simpl. lia. }
  destruct (between 240 244 (Byte.to_N b0)); [|done].
  destruct r0 as [|c1 [|c2 [|c3 r3]]]; [done..|].
  match type of Hdec with (if ?c then _ else _) = _ => destruct c eqn:Ec end;
    [|done].
  destruct (utf8_decode r3) as [t0|] eqn:Et; [|done]. injection Hdec as <-.
  apply andb_true_iff in Ec as [_ Hrange].
  unfold between in Hrange. apply andb_true_iff in Hrange as [Hlo Hhi].
  apply N.leb_le in Hlo, Hhi.
  constructor.
  - split; [lia|]. unfold between. apply andb_false_iff. right.
    apply N.leb_gt. lia.
  - eapply IH; [|done|exact Et]. simpl. lia.
Qed.

Lemma utf8_decode_encodable (b : bytes) (t : str) :
  utf8_decode b = Some t -> encodable t = true.
Proof. intros Hd. eapply encodable_Forall, utf8_decode_char_ok, Hd. Qed.

(** ** The writer, field by field *)

Section WriterProps.
Context {env : Env}.

Lemma try_base64_not_candidate (output_dir key : str) (val : json) (fs : filesystem) :
  is_b64_candidate val = false -> try_base64 output_dir key val fs = None.
Proof. intros Hc. unfold try_base64. by rewrite Hc. Qed.

Lemma candidate_in_class (s : str) :
  is_b64_candidate (JStr s) = true -> forallb in_class s = true.
Proof.
  simpl. intros [_ Hm]%andb_true_iff. by apply b64_re_match_spec in Hm as [_ ?].
Qed.

Lemma try_base64_candidate (output_dir key : str) (s : str) (fs : filesystem) :
  is_b64_candidate (JStr s) = true ->
  try_base64 output_dir key (JStr s) fs
  = match b64decode (u8 <$> s) with
    | Some decoded => save_decoded output_dir key decoded fs
    | None => None
    end.
Proof.
  intros Hc. unfold try_base64. rewrite Hc.
  by rewrite utf8_encode_class by by apply candidate_in_class.
Qed.

Lemma candidate_encodable (s : str) :
  is_b64_candidate (JStr s) = true -> encodable s = true.
Proof.
  intros Hc%candidate_in_class. unfold encodable.
  by rewrite utf8_encode_class.
Qed.


Lemma save_xml_payload_ok (output_dir key : str) (payload : bytes) (fs : filesystem) :
  openable (path_join output_dir (key ++ slit ".xml")) = true ->
  openable (path_join output_dir (key ++ slit ".bin")) = true ->
  save_xml_payload output_dir key payload fs
  = Some match utf8_decode payload with
         | Some text => put (path_join output_dir (key ++ slit ".xml")) (FText text) fs
         | None => put (path_join output_dir (key ++ slit ".bin")) (FBytes payload) fs
         end.
Proof.
  intros Hxml Hbin. unfold save_xml_payload, write_text, write_bytes.
  rewrite Hxml, Hbin. destruct (utf8_decode payload) as [text|] eqn:Et; [|done].
  by rewrite (utf8_decode_encodable _ _ Et).
Qed.

Lemma save_field_xml_name (output_dir key s : str) (decoded : bytes)
    (fs : filesystem) (remaining : dict) :
  is_b64_candidate (JStr s) = true ->
  b64decode (u8 <$> s) = Some decoded ->
  is_xml_name key = true ->
  openable (path_join output_dir (key ++ slit ".xml")) = true ->
  openable (path_join output_dir (key ++ slit ".bin")) = true ->
  save_field output_dir key (JStr s) fs remaining
  = Ok (match utf8_decode (default decoded (try_decompress decoded)) with
        | Some text => put (path_join output_dir (key ++ slit ".xml")) (FText text) fs
        | None =>
            put (path_join output_dir (key ++ slit ".bin"))
              (FBytes (default decoded (try_decompress decoded))) fs
        end, remaining).
Proof.
  intros Hc Hdec Hxml Ho1 Ho2. unfold save_field.
  rewrite try_base64_candidate, Hdec by done. unfold save_decoded.
  assert (bool_decide (key = slit "image") = false) as ->.
  { apply bool_decide_eq_false. intros ->. by vm_compute in Hxml. }
  rewrite Hxml.
  destruct (try_decompress decoded) as [d|]; simpl;
    by rewrite save_xml_payload_ok.
Qed.

Lemma save_field_plain_name (output_dir key s : str) (decoded : bytes)
    (fs : filesystem) (remaining : dict) :
  is_b64_candidate (JStr s) = true ->
  b64decode (u8 <$> s) = Some decoded ->
  is_xml_name key = false ->
  openable (path_join output_dir
              (if bool_decide (key = slit "image") then slit "firmware.bin"
               else key ++ slit ".bin")) = true ->
  save_field output_dir key (JStr s) fs remaining
  = Ok (put (path_join output_dir
               (if bool_decide (key = slit "image") then slit "firmware.bin"
                else key ++ slit ".bin"))
          (FBytes decoded) fs, remaining).
Proof.
  intros Hc Hdec Hxml Ho. unfold save_field.
  rewrite try_base64_candidate, Hdec by done. unfold save_decoded.
  rewrite Hxml. unfold write_bytes.
  destruct (bool_decide (key = slit "image")); by rewrite Ho.
Qed.

End WriterProps.

(** ** What a run does to the file system *)

Lemma puts_app (ws1 ws2 : list (str * content)) (fs : filesystem) :
  puts (ws1 ++ ws2) fs = puts ws2 (puts ws1 fs).
Proof. unfold puts. by rewrite foldl_app. Qed.

Lemma puts_dirs (ws : list (str * content)) (fs : filesystem) :
  fs_dirs (puts ws fs) = fs_dirs fs.
Proof. revert fs. induction ws as [|w ws IH]; intros fs; [done|]. simpl. by rewrite IH. Qed.

Lemma puts_lookup (ws : list (str * content)) (fs : filesystem) (k : str) :
  fs_files (puts ws fs) !! k
  = match last_write ws k with
    | Some c => Some c
    | None => fs_files fs !! k
    end.
Proof.
  revert fs. induction ws as [|[p c] ws IH]; intros fs; [done|].
  simpl. rewrite IH. destruct (last_write ws k); [done|].
  simpl. case_bool_decide as Hp.
  - subst. by rewrite lookup_insert_eq.
  - by rewrite lookup_insert_ne.
Qed.

Lemma filesystem_eq (fs1 fs2 : filesystem) :
  fs_dirs fs1 = fs_dirs fs2 ->
  (forall k, fs_files fs1 !! k = fs_files fs2 !! k) ->
  fs1 = fs2.
Proof.
  destruct fs1, fs2. simpl. intros -> Hf. f_equal. by apply map_eq.
Qed.


Lemma puts_idempotent (ws : list (str * content)) (fs : filesystem) :
  puts ws (puts ws fs) = puts ws fs.
Proof.
  apply filesystem_eq.
  - by rewrite !puts_dirs.
  - intros k. rewrite !puts_lookup. by destruct (last_write ws k).
Qed.

Section RunProps.
Context {env : Env}.

Lemma write_bytes_guarded (p : str) (b : bytes) : guarded_put (write_bytes p b).
Proof.
  unfold guarded_put, write_bytes. destruct (openable p); [right|left]; eauto.
Qed.

Lemma write_text_guarded (p : str) (s : str) : guarded_put (write_text p s).
Proof.
  unfold guarded_put, write_text.
  destruct (openable p), (encodable s); eauto.
Qed.

Lemma save_xml_payload_guarded (output_dir key : str) (payload : bytes) :
  guarded_put (save_xml_payload output_dir key payload).
Proof.
  unfold save_xml_payload.
  pose proof (write_bytes_guarded (path_join output_dir (key ++ slit ".bin")) payload)
    as Hb.
  destruct (utf8_decode payload) as [text|]; [|exact Hb].
  destruct (write_text_guarded (path_join output_dir (key ++ slit ".xml")) text)
    as [Hn|(p & c & Hs)].
  - destruct Hb as [Hbn|(p & c & Hbs)]; [left|right].
    + intros fs. by rewrite Hn, Hbn.
    + exists p, c. intros fs. by rewrite Hn, Hbs.
  - right. exists p, c. intros fs. by rewrite Hs.
Qed.

Lemma save_decoded_guarded (output_dir key : str) (decoded : bytes) :
  guarded_put (save_decoded output_dir key decoded).
Proof.
  unfold save_decoded. repeat case_match;
    auto using write_bytes_guarded, save_xml_payload_guarded.
Qed.

Lemma try_base64_guarded (output_dir key : str) (val : json) :
  guarded_put (try_base64 output_dir key val).
Proof.
  unfold try_base64. repeat case_match;
    auto using save_decoded_guarded; by left.
Qed.

Lemma try_base64_kept (output_dir key : str) (val : json) (fs : filesystem) :
  try_base64 output_dir key val fs = None
  <-> try_base64 output_dir key val empty_fs = None.
Proof.
  destruct (try_base64_guarded output_dir key val) as [Hn|(p & c & Hs)].
  - by rewrite !Hn.
  - by rewrite !Hs.
Qed.

(** One turn of the loop: it raises, or writes at most one file and
    updates the record, the same way from every file system. *)
Lemma save_field_frame (output_dir key : str) (val : json) (remaining : dict) :
  (forall fs, save_field output_dir key val fs remaining = Crash)
  \/ (exists ws,
        forall fs,
          save_field output_dir key val fs remaining
          = Ok (puts ws fs,
                if kept output_dir (key, val) then dict_set remaining key val
                else remaining)).
Proof.
  unfold save_field, kept. simpl fst. simpl snd.
  destruct (is_null val) eqn:En.
  { destruct val; try done. right. by exists []. }
  destruct (try_base64_guarded output_dir key val) as [Hn|(p & c & Hs)].
  - rewrite Hn. simpl.
    assert (forall fs,
      match val with
      | JNull => Ok (fs, remaining)
      | _ =>
          match try_base64 output_dir key val fs with
          | Some fs' => Ok (fs', remaining)
          | None =>
              match val with
              | JStr s =>
                  if is_long_text key val
                  then match write_text
                           (path_join output_dir (key ++ slit "." ++ text_ext key)) s fs
                       with
                       | Some fs' => Ok (fs', remaining)
                       | None => Crash
                       end
                  else Ok (fs, dict_set remaining key val)
              | _ => Ok (fs, dict_set remaining key val)
              end
          end
      end
      = match val with
        | JStr s =>
            if is_long_text key val
            then match write_text
                     (path_join output_dir (key ++ slit "." ++ text_ext key)) s fs
                 with
                 | Some fs' => Ok (fs', remaining)
                 | None => Crash
                 end
            else Ok (fs, dict_set remaining key val)
        | _ => Ok (fs, dict_set remaining key val)
        end) as Heq.
    { intros fs. rewrite Hn. by destruct val. }
    destruct val as [| | | |s| |]; try done;
      try (right; exists []; intros fs; by rewrite Heq).
    destruct (is_long_text key (JStr s)) eqn:El.
    + destruct (write_text_guarded
                  (path_join output_dir (key ++ slit "." ++ text_ext key)) s)
        as [Hwn|(p & c & Hws)].
      * left. intros fs. by rewrite Heq, Hwn.
      * right. exists [(p, c)]. intros fs. by rewrite Heq, Hws.
    + right. exists []. intros fs. by rewrite Heq.
  - rewrite Hs. simpl. right. exists [(p, c)]. intros fs. rewrite Hs.
    by destruct val.
Qed.
End RunProps.

Section PipelineProps.
Context {env : Env}.

Lemma save_fields_frame (output_dir : str) (items remaining : dict) :
  (forall fs, save_fields output_dir items fs remaining = Crash)
  \/ (exists ws,
        forall fs,
          save_fields output_dir items fs remaining
          = Ok (puts ws fs, collect output_dir remaining items)).
Proof.
  revert remaining. induction items as [|[key val] items IH]; intros remaining.
  { right. by exists []. }
  cbn [save_fields].
  destruct (save_field_frame output_dir key val remaining) as [Hc|(ws1 & Hf)].
  { left. intros fs. by rewrite Hc. }
  destruct (IH (if kept output_dir (key, val) then dict_set remaining key val
                else remaining)) as [Hc|(ws2 & Hr)].
  - left. intros fs. by rewrite Hf, Hc.
  - right. exists (ws1 ++ ws2). intros fs. by rewrite Hf, Hr, puts_app.
Qed.

Lemma save_metadata_files_frame (metadata : dict) (output_dir : str) :
  (forall fs, save_metadata_files metadata output_dir fs = Crash)
  \/ (exists ws,
        forall fs,
          save_metadata_files metadata output_dir fs
          = Ok (puts (ws ++ [(path_join output_dir (slit "metadata.json"),
                              FJson (collect output_dir [] metadata))])
                  (mkdir output_dir fs))).
Proof.
  unfold save_metadata_files, makedirs, dump_json.
  destruct (makedirs_ok output_dir); [|by left].
  destruct (save_fields_frame output_dir metadata []) as [Hc|(ws & Hf)].
  { left. intros fs. by rewrite Hc. }
  destruct (openable (path_join output_dir (slit "metadata.json"))
            && dict_encodable (collect output_dir [] metadata)) eqn:Eo.
  - right. exists ws. intros fs. by rewrite Hf, Eo, puts_app.
  - left. intros fs. by rewrite Hf, Eo.
Qed.

Lemma main_frame (file : option bytes) :
  (forall fs, main file fs = Crash)
  \/ (forall fs, main file fs = Ok fs)
  \/ (exists ws, forall fs, main file fs = Ok (puts ws (mkdir (slit "extracted") fs))).
Proof.
  unfold main. destruct (quick_extract_tags file) as [[[|kv metadata]|]|]; auto.
  destruct (save_metadata_files_frame (kv :: metadata) (slit "extracted"))
    as [Hc|(ws & Hf)]; eauto.
Qed.


(** A run that raises does so from every starting state. *)
Lemma pipeline_crash_stable (file : option bytes) (fs fs' : filesystem) :
  main file fs = Crash -> main file fs' = Crash.
Proof.
  intros Hrun. destruct (main_frame file) as [Hc|[Hid|(ws & Hw)]]; [done|..].
  - by rewrite Hid in Hrun.
  - by rewrite Hw in Hrun.
Qed.
End PipelineProps.

(** ** The aggregate record *)

Lemma dict_set_fresh (d : dict) (k : str) (v : json) :
  k ∉ d.*1 -> dict_set d k v = d ++ [(k, v)].
Proof.
  induction d as [|[k' v'] d IH]; simpl; [done|].
  intros [Hk Hd]%not_elem_of_cons. rewrite bool_decide_eq_false_2 by done.
  by rewrite IH.
Qed.

Lemma dict_get_None (d : dict) (k : str) : k ∉ d.*1 -> dict_get d k = None.
Proof.
  induction d as [|[k' v'] d IH]; simpl; [done|].
  intros [Hk Hd]%not_elem_of_cons. rewrite bool_decide_eq_false_2 by done. auto.
Qed.

Lemma dict_get_Some (d : dict) (k : str) (v : json) :
  NoDup d.*1 -> (k, v) ∈ d -> dict_get d k = Some v.
Proof.
  induction d as [|[k' v'] d IH]; simpl; [by intros _ ?%elem_of_nil|].
  intros [Hk Hd]%NoDup_cons [[= -> ->]|Hin]%elem_of_cons.
  - by rewrite bool_decide_eq_true_2.
  - rewrite bool_decide_eq_false_2; [auto|].
    intros ->. apply Hk. apply list_elem_of_fmap. by exists (k, v).
Qed.

Section RecordProps.
Context {env : Env}.

Lemma collect_filter (output_dir : str) (remaining items : dict) :
  NoDup (remaining.*1 ++ items.*1) ->
  collect output_dir remaining items
  = remaining ++ filter (fun kv => kept output_dir kv = true) items.
Proof.
  revert remaining. induction items as [|[k v] items IH]; intros remaining Hnd.
  { simpl. by rewrite app_nil_r. }
  unfold collect in *. cbn [foldl]. rewrite filter_cons. simpl in Hnd.
  apply NoDup_app in Hnd as (Hr & Hdis & [Hk Hi]%NoDup_cons).
  destruct (kept output_dir (k, v)) eqn:Ek.
  - rewrite decide_True by done. simpl fst. simpl snd.
    rewrite dict_set_fresh.
    2:{ intros Hin. apply (Hdis k Hin). by left. }
    rewrite IH, <- app_assoc; [done|].
    rewrite fmap_app, <- app_assoc. simpl.
    apply NoDup_app. split; [done|]. split; [done|]. by apply NoDup_cons.
  - rewrite decide_False by done. apply IH.
    apply NoDup_app. split; [done|]. split; [|done].
    intros x Hx Hxi. apply (Hdis x Hx). by right.
Qed.

Lemma scalar_kept (output_dir key : str) (val : json) :
  val <> JNull -> spec_scalar key val = true -> kept output_dir (key, val) = true.
Proof.
  unfold spec_scalar, kept. simpl.
  intros Hn [Hc Hl]%andb_true_iff. apply negb_true_iff in Hc.
  rewrite (try_base64_not_candidate _ _ _ _ Hc), Hl.
  by destruct val.
Qed.

(** C3 (as amended): when the writer completes, [metadata.json] holds the
    aggregate record; every field classified as scalar whose value is not
    null is in it unchanged under its own key, the record keeps the order
    of the metadata, and the fields whose value is null are left out. *)
Theorem scalars_routed_to_metadata_json (metadata : dict) (output_dir : str)
    (fs fs' : filesystem) :
  NoDup metadata.*1 ->
  save_metadata_files metadata output_dir fs = Ok fs' ->
  exists remaining,
    fs_files fs' !! path_join output_dir (slit "metadata.json")
    = Some (FJson remaining)
    /\ remaining `sublist_of` metadata
    /\ (forall key val,
          (key, val) ∈ metadata -> val <> JNull -> spec_scalar key val = true ->
          (key, val) ∈ remaining /\ dict_get remaining key = Some val)
    /\ (forall key, (key, JNull) ∈ metadata -> dict_get remaining key = None).
Proof.
  intros Hnd Hrun.
  destruct (save_metadata_files_frame metadata output_dir) as [Hc|(ws & Hw)];
    [by rewrite Hc in Hrun|].
  rewrite Hw in Hrun. injection Hrun as <-.
  rewrite collect_filter by done. simpl.
  set (remaining := filter (fun kv => kept output_dir kv = true) metadata).
  assert (remaining `sublist_of` metadata) as Hsub by apply sublist_filter.
  assert (NoDup remaining.*1) as Hndr.
  { pose proof (fmap_sublist fst _ _ Hsub) as Hs. by eapply sublist_NoDup. }
  exists remaining. split; [|split; [done|split]].
  - rewrite puts_lookup.
    assert (forall ws' p c, last_write (ws' ++ [(p, c)]) p = Some c) as Hlast.
    { intros ws' p c. induction ws' as [|[p' c'] ws' IH]; simpl.
      - by rewrite bool_decide_eq_true_2.
      - by rewrite IH. }
    by rewrite Hlast.
  - intros key val Hin Hnull Hsc.
    assert ((key, val) ∈ remaining) as Hr.
    { apply list_elem_of_filter. split; [|done]. by apply scalar_kept. }
    split; [done|]. by apply dict_get_Some.
  - intros key Hin. apply dict_get_None. intros Hk.
    apply list_elem_of_fmap in Hk as ([k v] & -> & Hkv). simpl in *.
    apply list_elem_of_filter in Hkv as [Hkept Hkv].
    assert (dict_get metadata k = Some v) as Hv by by apply dict_get_Some.
    rewrite (dict_get_Some metadata k JNull) in Hv by done.
    injection Hv as <-. by vm_compute in Hkept.
Qed.
End RecordProps.

(** ** Scenarios *)

Section Scenarios.
Context {env : Env}.

Lemma save_field_scalar (output_dir key : str) (val : json) (fs : filesystem)
    (remaining : dict) :
  val <> JNull -> spec_scalar key val = true ->
  save_field output_dir key val fs remaining = Ok (fs, dict_set remaining key val).
Proof.
  unfold spec_scalar, save_field. intros Hn [Hc Hl]%andb_true_iff.
  apply negb_true_iff in Hc, Hl.
  rewrite (try_base64_not_candidate _ _ _ _ Hc), Hl. by destruct val.
Qed.

Lemma b64encode_candidate (payload : bytes) :
  76 <= len payload ->
  is_b64_candidate (JStr (ascii_str (b64encode payload))) = true.
Proof.
  intros Hlen. simpl. apply andb_true_iff. split.
  - apply Z.ltb_lt. unfold ascii_str, len. rewrite length_map.
    fold (len (b64encode payload)). rewrite b64encode_length.
    assert (26 <= (len payload + 2) / 3) by (apply Z.div_le_lower_bound; lia).
    lia.
  - apply b64_re_match_spec. split; [|apply b64encode_in_class].
    destruct payload as [|b1 [|b2 [|b3 p]]]; try done;
      unfold len in Hlen; simpl in Hlen; lia.
Qed.

(** C1 (as amended): for the metadata object with [board_id] 9, [image]
    the base64 text of a payload of at least 76 bytes (so that the text is
    longer than 100 characters) and [description] x, the writer leaves
    [firmware.bin] holding exactly the payload and [metadata.json] holding
    exactly the board id and the description, and writes nothing else. *)
Theorem image_field_end_to_end (payload : bytes) (fs : filesystem) :
  76 <= len payload ->
  makedirs_ok (slit "extracted") = true ->
  openable (slit "extracted/firmware.bin") = true ->
  openable (slit "extracted/metadata.json") = true ->
  save_metadata_files
    [(slit "board_id", JInt 9);
     (slit "image", JStr (ascii_str (b64encode payload)));
     (slit "description", JStr (slit "x"))]
    (slit "extracted") fs
  = Ok (put (slit "extracted/metadata.json")
          (FJson [(slit "board_id", JInt 9); (slit "description", JStr (slit "x"))])
          (put (slit "extracted/firmware.bin") (FBytes payload)
             (mkdir (slit "extracted") fs))).
Proof.
  intros Hlen Hmk Hfw Hmeta.
  unfold save_metadata_files, makedirs. rewrite Hmk. cbn [save_fields].
  rewrite save_field_scalar by done.
  pose proof (b64encode_candidate payload Hlen) as Hcand.
  rewrite (save_field_plain_name (slit "extracted") (slit "image")
             (ascii_str (b64encode payload)) payload);
    [|done|by rewrite u8_ascii_str, b64decode_b64encode|done|exact Hfw].
  rewrite save_field_scalar by done.
  unfold dump_json.
  change (path_join (slit "extracted") (slit "metadata.json"))
    with (slit "extracted/metadata.json").
  rewrite Hmeta. reflexivity.
Qed.

(** C7 (as amended): under the key [airframe_xml] or [parameter_xml], the
    base64 text of a gzip stream of a payload, when the stream has at least
    76 bytes so that its text is longer than 100 characters, is decoded and
    the gzip step answers with the payload, which is what the field's file
    holds: [key.xml] with the payload as text when it is UTF-8 (as HELLO
    is), [key.bin] with its bytes otherwise.  Likewise for a zlib stream
    (header byte 0x78), which the gzip step passes over, and for a zip
    archive whose first entry is the payload, which the gzip and zlib steps
    pass over.  The script keeps no tag: the step that answers is the only
    trace of the format. *)
Theorem cascade_round_trip (output_dir key : str) (gz zl zp payload : bytes)
    (z : archive) (name : str) (names : list str) (fs : filesystem)
    (remaining : dict) :
  is_xml_name key = true ->
  openable (path_join output_dir (key ++ slit ".xml")) = true ->
  openable (path_join output_dir (key ++ slit ".bin")) = true ->
  76 <= len gz -> startswith [x1f; x8b] gz = true ->
  gzip_decompress gz = Some payload ->
  76 <= len zl -> startswith [x78] zl = true ->
  zlib_decompress zl = Some payload ->
  76 <= len zp -> startswith [x50; x4b; x03; x04] zp = true ->
  ZipFile zp = Some z -> namelist z = name :: names ->
  zip_read z name = Some payload ->
  let written :=
    match utf8_decode payload with
    | Some text => put (path_join output_dir (key ++ slit ".xml")) (FText text) fs
    | None => put (path_join output_dir (key ++ slit ".bin")) (FBytes payload) fs
    end in
  (attempt_gzip gz = Some payload
   /\ save_field output_dir key (JStr (ascii_str (b64encode gz))) fs remaining
      = Ok (written, remaining))
  /\ (attempt_gzip zl = None /\ attempt_zlib zl = Some payload
      /\ save_field output_dir key (JStr (ascii_str (b64encode zl))) fs remaining
         = Ok (written, remaining))
  /\ (attempt_gzip zp = None /\ attempt_zlib zp = None
      /\ attempt_zip zp = Some payload
      /\ save_field output_dir key (JStr (ascii_str (b64encode zp))) fs remaining
         = Ok (written, remaining)).
Proof.
  intros Hxml Ho1 Ho2 Hgl Hgs Hg Hzl Hzs Hz Hpl Hps Hp Hn Hr written.
  assert (attempt_gzip gz = Some payload) as Ag
    by (unfold attempt_gzip; by rewrite Hgs).
  assert (attempt_gzip zl = None) as Bg.
  { unfold attempt_gzip. destruct zl as [|b0 zl]; [done|]. simpl in Hzs.
    apply andb_true_iff in Hzs as [<-%byte_eqb_eq _]. done. }
  assert (attempt_zlib zl = Some payload) as Bz.
  { assert (2 <= len zl) as Hz2 by lia.
    unfold attempt_zlib. destruct zl as [|b0 zl]; [done|]. simpl in Hzs.
    apply andb_true_iff in Hzs as [<-%byte_eqb_eq _].
    by rewrite (proj2 (Z.leb_le _ _) Hz2). }
  assert (attempt_gzip zp = None /\ attempt_zlib zp = None) as [Cg Cz].
  { unfold attempt_gzip, attempt_zlib. destruct zp as [|b0 zp]; [done|].
    simpl in Hps. apply andb_true_iff in Hps as [<-%byte_eqb_eq _].
    split; [done|]. by rewrite andb_false_r. }
  assert (attempt_zip zp = Some payload) as Cp
    by (unfold attempt_zip; by rewrite Hps, Hp, Hn).
  assert (forall raw, 76 <= len raw -> try_decompress raw = Some payload ->
            save_field output_dir key (JStr (ascii_str (b64encode raw))) fs remaining
            = Ok (written, remaining)) as Hfield.
  { intros raw Hlen Htry.
    rewrite (save_field_xml_name output_dir key (ascii_str (b64encode raw)) raw);
      [|by apply b64encode_candidate
       |by rewrite u8_ascii_str, b64decode_b64encode|done..].
    by rewrite Htry. }
  repeat split; try done; apply Hfield; try done; unfold try_decompress.
  - by rewrite Ag.
  - by rewrite Bg, Bz.
  - by rewrite Cg, Cz, Cp.
Qed.

(** C10: when the object found by the scanner parses to the empty dict,
    the entry point returns without calling the writer: no directory is
    made and no file written, as when the parse fails or the input file is
    missing. *)
Theorem empty_object_writes_nothing (data jb : bytes) (fs : filesystem) :
  find_json_bytes data None = Some jb ->
  (parse_metadata jb = Some [] -> main (Some data) fs = Ok fs)
  /\ (parse_metadata jb = None -> main (Some data) fs = Ok fs)
  /\ main None fs = Ok fs.
Proof.
  intros Hfind. unfold main, quick_extract_tags. rewrite Hfind.
  split; [|split; [|done]]; intros Hp; (destruct jb; [done|]); by rewrite Hp.
Qed.
End Scenarios.

(** ** The theorems at concrete inputs *)

Lemma image_field_end_to_end_witness :
  @save_metadata_files table_env (image_object binarydata_x8) (slit "extracted") empty_fs
  = Ok (put (slit "extracted/metadata.json") (FJson board_object)
          (put (slit "extracted/firmware.bin") (FBytes binarydata_x8)
             (mkdir (slit "extracted") empty_fs))).
Proof.
  apply (@image_field_end_to_end table_env binarydata_x8 empty_fs);
    [vm_compute; discriminate | reflexivity..].
Defined.

(** C1 as stated fails: the base64 text of BINARYDATA has 16 characters,
    so line 160 does not take it for binary; no [firmware.bin] is written
    and the text stays in [metadata.json]. *)
Lemma image_field_counterexample :
  exists fs',
    @save_metadata_files table_env (image_object (blit "BINARYDATA"))
      (slit "extracted") empty_fs = Ok fs'
    /\ fs_files fs' !! slit "extracted/firmware.bin" = None
    /\ fs_files fs' !! slit "extracted/metadata.json"
       = Some (FJson (image_object (blit "BINARYDATA")))
    /\ image_object (blit "BINARYDATA") <> board_object.
Proof. eexists. split; [vm_compute; reflexivity|]. by vm_compute. Qed.



Lemma scalars_routed_to_metadata_json_witness :
  exists remaining,
    fs_files (put (slit "extracted/metadata.json") (FJson board_object)
                (mkdir (slit "extracted") empty_fs))
      !! path_join (slit "extracted") (slit "metadata.json")
    = Some (FJson remaining)
    /\ remaining `sublist_of` null_object
    /\ (forall key val,
          (key, val) ∈ null_object -> val <> JNull -> spec_scalar key val = true ->
          (key, val) ∈ remaining /\ dict_get remaining key = Some val)
    /\ (forall key, (key, JNull) ∈ null_object -> dict_get remaining key = None).
Proof.
  apply (@scalars_routed_to_metadata_json table_env null_object (slit "extracted")
           empty_fs).
  - apply (bool_decide_unpack _). vm_compute. exact I.
  - vm_compute. reflexivity.
Defined.

(** C3 as stated fails: a field whose value is null is scalar for the
    classifier, yet line 156 skips it and the record does not hold it. *)
Lemma null_field_counterexample :
  is_b64_candidate JNull = false
  /\ is_long_text (slit "git_hash") JNull = false
  /\ @save_metadata_files table_env null_object (slit "extracted") empty_fs
     = Ok (put (slit "extracted/metadata.json") (FJson board_object)
             (mkdir (slit "extracted") empty_fs))
  /\ dict_get board_object (slit "git_hash") = None.
Proof. repeat split; by vm_compute. Qed.



Lemma cascade_round_trip_witness :
  (@attempt_gzip table_env gz_hello_named = Some (blit "HELLO")
   /\ @save_field table_env (slit "extracted") (slit "airframe_xml")
        (JStr (ascii_str (b64encode gz_hello_named))) empty_fs []
      = Ok (put (slit "extracted/airframe_xml.xml") (FText (slit "HELLO")) empty_fs, []))
  /\ (@attempt_gzip table_env zlib_hello_flushed = None
      /\ @attempt_zlib table_env zlib_hello_flushed = Some (blit "HELLO")
      /\ @save_field table_env (slit "extracted") (slit "airframe_xml")
           (JStr (ascii_str (b64encode zlib_hello_flushed))) empty_fs []
         = Ok (put (slit "extracted/airframe_xml.xml") (FText (slit "HELLO")) empty_fs, []))
  /\ (@attempt_gzip table_env zip_hello = None
      /\ @attempt_zlib table_env zip_hello = None
      /\ @attempt_zip table_env zip_hello = Some (blit "HELLO")
      /\ @save_field table_env (slit "extracted") (slit "airframe_xml")
           (JStr (ascii_str (b64encode zip_hello))) empty_fs []
         = Ok (put (slit "extracted/airframe_xml.xml") (FText (slit "HELLO")) empty_fs, [])).
Proof.
  apply (@cascade_round_trip table_env (slit "extracted") (slit "airframe_xml")
           gz_hello_named zlib_hello_flushed zip_hello (blit "HELLO")
           [(slit "a.txt", blit "HELLO")] (slit "a.txt") [] empty_fs []);
    try reflexivity; vm_compute; discriminate.
Defined.

(** C7 as stated fails: the base64 text of [gzip.compress(b'HELLO')] has 36
    characters and that of [zlib.compress(b'HELLO')] has 20, so line 160
    takes neither for binary and nothing is decoded, although each stream
    does decompress to HELLO.  Under [airframe_xml] the file holds the
    base64 text itself. *)
Lemma cascade_hello_counterexample :
  (@try_decompress table_env gz_hello = Some (blit "HELLO")
   /\ len (ascii_str (b64encode gz_hello)) = 36
   /\ is_b64_candidate (JStr (ascii_str (b64encode gz_hello))) = false
   /\ @save_field table_env (slit "extracted") (slit "airframe_xml")
        (JStr (ascii_str (b64encode gz_hello))) empty_fs []
      = Ok (put (slit "extracted/airframe_xml.xml")
              (FText (ascii_str (b64encode gz_hello))) empty_fs, [])
   /\ ascii_str (b64encode gz_hello) <> slit "HELLO")
  /\ (@try_decompress table_env zlib_hello = Some (blit "HELLO")
      /\ len (ascii_str (b64encode zlib_hello)) = 20
      /\ is_b64_candidate (JStr (ascii_str (b64encode zlib_hello))) = false
      /\ @save_field table_env (slit "extracted") (slit "airframe_xml")
           (JStr (ascii_str (b64encode zlib_hello))) empty_fs []
         = Ok (put (slit "extracted/airframe_xml.xml")
                 (FText (ascii_str (b64encode zlib_hello))) empty_fs, [])
      /\ ascii_str (b64encode zlib_hello) <> slit "HELLO").
Proof. repeat split; by vm_compute. Qed.


Lemma empty_object_writes_nothing_witness :
  @main table_env (Some (blit "PX4" ++ jlit "{}")) empty_fs = Ok empty_fs.
Proof.
  apply (proj1 (@empty_object_writes_nothing table_env (blit "PX4" ++ jlit "{}")
                  (jlit "{}") empty_fs ltac:(reflexivity))).
  reflexivity.
Defined.

(** * Further properties of the script *)

(** ** The scanner: which candidate wins *)

Lemma startswith_single (c : byte) (rest : bytes) :
  startswith [c] rest = true <-> head rest = Some c.
Proof.
  destruct rest as [|h t]; simpl; [done|].
  rewrite andb_true_r, byte_eqb_eq. naive_solver.
Qed.

(** [data.find(c, start)] returns the first index at or after [start] that
    holds [c], and [-1] only when there is none. *)
Lemma find_at_single (c : byte) (rest : bytes) (i : Z) :
  (find_at [c] rest i = -1 /\ c ∉ rest)
  \/ exists n : nat,
       find_at [c] rest i = i + Z.of_nat n
       /\ rest !! n = Some c
       /\ forall k : nat, (k < n)%nat -> rest !! k <> Some c.
Proof.
  revert i. induction rest as [|h t IH]; intros i.
  { left. split; [done|]. apply not_elem_of_nil. }
  cbn [find_at]. destruct (startswith [c] (h :: t)) eqn:E.
  - apply startswith_single in E. injection E as ->.
    right. exists 0%nat. split; [lia|]. split; [done|]. lia.
  - assert (h <> c) as Hne.
    { intros ->. by rewrite (proj2 (startswith_single c (c :: t))) in E. }
    destruct (IH (i + 1)) as [[Hr Hn]|(n & Hr & Hat & Hbefore)].
    + left. split; [done|]. apply not_elem_of_cons. split; [done|done].
    + right. exists (S n). split; [lia|]. split; [done|].
      intros [|k] Hk; simpl; [congruence|]. apply Hbefore. lia.
Qed.

Lemma bytes_find_single (data : bytes) (c : byte) (start : Z) :
  0 <= start ->
  (bytes_find data [c] start = -1
   /\ forall j, start <= j -> data !! Z.to_nat j <> Some c)
  \/ (start <= bytes_find data [c] start
      /\ data !! Z.to_nat (bytes_find data [c] start) = Some c
      /\ forall j, start <= j < bytes_find data [c] start ->
                   data !! Z.to_nat j <> Some c).
Proof.
  intros Hs. unfold bytes_find.
  destruct (find_at_single c (drop (Z.to_nat start) data) start)
    as [[Hr Hn]|(n & Hr & Hat & Hbefore)].
  - left. split; [done|]. intros j Hj Hat. apply Hn.
    apply list_elem_of_lookup. exists (Z.to_nat j - Z.to_nat start)%nat.
    rewrite lookup_drop. rewrite <- Hat. f_equal. lia.
  - right. rewrite Hr. split; [lia|]. rewrite lookup_drop in Hat. split.
    + rewrite <- Hat. f_equal. lia.
    + intros j Hj Hc. apply (Hbefore (Z.to_nat j - Z.to_nat start)%nat); [lia|].
      rewrite lookup_drop, <- Hc. f_equal. lia.
Qed.

(** What the outer loop returns, when it has fuel left, from the first
    candidate at or after [lo]. *)
Lemma scan_candidates_leftmost (fuel : nat) (data : bytes) (m : option Z) (lo : Z)
    (r : option bytes) :
  0 <= lo ->
  scan_candidates fuel data m (bytes_find data [x7b] lo) = Some r ->
  match r with
  | Some jb =>
      exists s i, lo <= s /\ closes data m s i /\ jb = slice data s (i + 1)
        /\ forall s' i', lo <= s' < s -> ~ closes data m s' i'
  | None => forall s' i', lo <= s' -> ~ closes data m s' i'
  end.
Proof.
  revert lo. induction fuel as [|fuel IH]; intros lo Hlo Hrun.
  - simpl in Hrun. destruct (bytes_find_single data x7b lo Hlo) as [[Hf Hno]|(Hle & Hat & Hno)].
    + rewrite Hf in Hrun. injection Hrun as <-.
      intros s' i' Hs' (_ & Hb & _). by apply (Hno s').
    + destruct (bytes_find data [x7b] lo =? -1) eqn:E; [|done].
      apply Z.eqb_eq in E. lia.
  - destruct (bytes_find_single data x7b lo Hlo) as [[Hf Hno]|(Hle & Hat & Hno)].
    + rewrite Hf in Hrun. injection Hrun as <-.
      intros s' i' Hs' (_ & Hb & _). by apply (Hno s').
    + set (start := bytes_find data [x7b] lo) in *.
      rewrite scan_candidates_S in Hrun by lia.
      destruct (walk (slice data start (scan_limit data m start)) scan_init start)
        as [i|] eqn:Hw.
      * injection Hrun as <-. exists start, i.
        split; [done|]. split; [by repeat split; [lia|..]|]. split; [done|].
        intros s' i' Hs' (_ & Hb & _). by apply (Hno s').
      * specialize (IH (start + 1) ltac:(lia) Hrun).
        assert (forall s' i', lo <= s' < start + 1 -> ~ closes data m s' i') as Hnone.
        { intros s' i' Hs' (H0 & Hb & Hc).
          destruct (Z.eq_dec s' start) as [->|Hne]; [congruence|].
          apply (Hno s'); [lia|done]. }
        destruct r as [jb|].
        -- destruct IH as (s & i & Hs & Hc & Hjb & Hleft).
           exists s, i. split; [lia|]. split; [done|]. split; [done|].
           intros s' i' Hs'. destruct (Z.lt_ge_cases s' (start + 1)).
           ++ apply Hnone. lia.
           ++ apply Hleft. lia.
        -- intros s' i' Hs'. destruct (Z.lt_ge_cases s' (start + 1)).
           ++ apply Hnone. lia.
           ++ apply IH. lia.
Qed.

(** X1: the scanner returns the slice of the leftmost candidate whose walk
    closes within its limit, from its opening brace to the byte where the
    walk returns; it returns nothing exactly when no candidate closes. *)
Theorem find_json_bytes_leftmost (data : bytes) (m : option Z) :
  match find_json_bytes data m with
  | Some jb =>
      exists s i, closes data m s i /\ jb = slice data s (i + 1)
        /\ forall s' i', s' < s -> ~ closes data m s' i'
  | None => forall s' i', ~ closes data m s' i'
  end.
Proof.
  pose proof (scan_candidates_leftmost (S (length data)) data m 0
                (find_json_bytes data m) ltac:(lia) (find_json_bytes_fuel data m)) as Hl.
  destruct (find_json_bytes data m) as [jb|].
  - destruct Hl as (s & i & Hs & Hc & Hjb & Hleft).
    exists s, i. split; [done|]. split; [done|].
    intros s' i' Hs' Hc'. apply (Hleft s' i'); [|done].
    destruct Hc' as (? & _). lia.
  - intros s' i' Hc. apply (Hl s' i'); [|done]. by destruct Hc as (? & _).
Qed.

(** ** The scanner: what the returned slice looks like *)

Lemma scan_step_return (st : ScanState) (ch : byte) :
  scan_step st ch = Return -> ch = x7d.
Proof.
  unfold scan_step. repeat case_match; try done. intros _. by apply byte_eqb_eq.
Qed.

Lemma walk_bounds (w : bytes) (st : ScanState) (i j : Z) :
  walk w st i = Some j ->
  i <= j < i + len w /\ w !! Z.to_nat (j - i) = Some x7d.
Proof.
  revert st i. induction w as [|ch rest IH]; intros st i; simpl; [done|].
  destruct (scan_step st ch) as [st'|] eqn:E.
  - intros [Hr Hat]%IH. unfold len in *. simpl. split; [lia|].
    replace (Z.to_nat (j - i)) with (S (Z.to_nat (j - (i + 1)))) by lia. done.
  - intros [= <-]. unfold len. simpl. split; [lia|].
    rewrite Z.sub_diag. simpl. f_equal. by apply scan_step_return in E.
Qed.

Lemma walk_take (w : bytes) (st : ScanState) (i j : Z) :
  walk w st i = Some j ->
  walk (take (Z.to_nat (j - i + 1)) w) st i = Some j.
Proof.
  revert st i. induction w as [|ch rest IH]; intros st i; simpl; [done|].
  destruct (scan_step st ch) as [st'|] eqn:E.
  - intros Hw. pose proof (walk_bounds _ _ _ _ Hw) as [Hb _].
    replace (Z.to_nat (j - i + 1)) with (S (Z.to_nat (j - (i + 1) + 1))) by lia.
    simpl. rewrite E. by apply IH.
  - intros [= <-]. replace (Z.to_nat (i - i + 1)) with 1%nat by lia.
    simpl. by rewrite E.
Qed.

Lemma walk_first_byte (w : bytes) (i j : Z) :
  walk w scan_init i = Some j -> i < j.
Proof.
  destruct w as [|ch rest]; simpl; [done|].
  destruct (scan_step scan_init ch) as [st'|] eqn:E.
  - intros [Hb _]%walk_bounds. lia.
  - unfold scan_step, scan_init in E. simpl in E.
    repeat case_match; done.
Qed.

(** The slice of a candidate that closes: it has the length the walk
    covered, it starts with the opening brace, and walked on its own it
    closes at its last byte. *)
Lemma closes_slice (data : bytes) (m : option Z) (s i : Z) :
  closes data m s i ->
  len (slice data s (i + 1)) = i - s + 1
  /\ head (slice data s (i + 1)) = Some x7b
  /\ last (slice data s (i + 1)) = Some x7d
  /\ walk (slice data s (i + 1)) scan_init 0 = Some (i - s)
  /\ s < i < scan_limit data m s
  /\ data = take (Z.to_nat s) data ++ slice data s (i + 1)
             ++ drop (Z.to_nat (i + 1)) data.
Proof.
  intros (Hs & Hat & Hw).
  pose proof (walk_first_byte _ _ _ Hw) as Hlt.
  pose proof (walk_bounds _ _ _ _ Hw) as [Hb Hend].
  pose proof (walk_take _ _ _ _ Hw) as Ht.
  unfold slice in *. rewrite take_take in Ht.
  assert (len (take (Z.to_nat (scan_limit data m s - s)) (drop (Z.to_nat s) data))
          <= scan_limit data m s - s) as Hlen.
  { unfold len in *. rewrite length_take in *. lia. }
  assert (len (take (Z.to_nat (scan_limit data m s - s)) (drop (Z.to_nat s) data))
          <= len data - s) as Hlen2.
  { unfold len in *. rewrite length_take, length_drop in *. lia. }
  replace (Z.to_nat (i - s + 1) `min` Z.to_nat (scan_limit data m s - s))%nat
    with (Z.to_nat (i + 1 - s)) in Ht by lia.
  set (jb := take (Z.to_nat (i + 1 - s)) (drop (Z.to_nat s) data)) in *.
  assert (len jb = i - s + 1) as Hjb.
  { unfold jb, len in *. rewrite length_take, length_drop. lia. }
  split; [done|]. split; [|split; [|split; [|split]]].
  - unfold jb. apply drop_S in Hat. rewrite Hat.
    destruct (Z.to_nat (i + 1 - s)) eqn:En; [lia|done].
  - rewrite last_lookup. unfold jb. rewrite lookup_take_lt.
    2:{ unfold len in Hjb. fold jb. lia. }
    rewrite lookup_take_lt in Hend by lia.
    fold jb. rewrite <- Hend. f_equal. unfold len in Hjb. lia.
  - rewrite walk_shift in Ht. destruct (walk jb scan_init 0) as [k|]; [|done].
    simpl in Ht. injection Ht as Hk. f_equal. lia.
  - lia.
  - unfold jb. rewrite <- (take_drop (Z.to_nat s) data) at 1. f_equal.
    rewrite <- (take_drop (Z.to_nat (i + 1 - s)) (drop (Z.to_nat s) data)) at 1.
    f_equal. rewrite drop_drop. f_equal. lia.
Qed.

Lemma find_json_bytes_closes (data : bytes) (m : option Z) (jb : bytes) :
  find_json_bytes data m = Some jb ->
  exists s i, closes data m s i /\ jb = slice data s (i + 1).
Proof.
  intros Hf.
  pose proof (scan_candidates_leftmost (S (length data)) data m 0
                (find_json_bytes data m) ltac:(lia) (find_json_bytes_fuel data m)) as Hl.
  rewrite Hf in Hl. destruct Hl as (s & i & _ & Hc & Hjb & _). eauto.
Qed.

(** The first candidate is the one returned when its walk closes. *)
Lemma find_json_bytes_first (pre rest : bytes) (m : option Z) (i : Z) :
  x7b ∉ pre ->
  walk (slice (pre ++ x7b :: rest) (len pre)
          (scan_limit (pre ++ x7b :: rest) m (len pre))) scan_init (len pre)
  = Some i ->
  find_json_bytes (pre ++ x7b :: rest) m
  = Some (slice (pre ++ x7b :: rest) (len pre) (i + 1)).
Proof.
  intros Hpre Hw. apply (inj Some). rewrite <- find_json_bytes_fuel.
  assert (bytes_find (pre ++ x7b :: rest) [x7b] 0 = len pre) as ->.
  { unfold bytes_find. change (Z.to_nat 0) with 0%nat. rewrite drop_0.
    rewrite find_at_skip by done. lia. }
  pose proof (len_nonneg pre). rewrite scan_candidates_S by lia. by rewrite Hw.
Qed.

Lemma walk_window_prefix (pre obj rest : bytes) (hi : Z) :
  walk obj scan_init 0 = Some (len obj - 1) ->
  len pre + len obj <= hi ->
  walk (slice (pre ++ obj ++ rest) (len pre) hi) scan_init (len pre)
  = Some (len pre + len obj - 1).
Proof.
  intros Hw Hhi. rewrite slice_after by done.
  apply walk_app. rewrite walk_shift, Hw. simpl. f_equal. lia.
Qed.

Lemma slice_full (l : bytes) : slice l 0 (len l) = l.
Proof.
  unfold slice, len. change (Z.to_nat 0) with 0%nat. rewrite drop_0.
  apply take_ge. lia.
Qed.

(** A buffer that is one balanced object is returned whole. *)
Lemma find_json_bytes_whole (obj : bytes) :
  head obj = Some x7b ->
  walk obj scan_init 0 = Some (len obj - 1) ->
  find_json_bytes obj None = Some obj.
Proof.
  destruct obj as [|b0 tl]; [done|]. intros [= ->] Hw.
  pose proof (find_json_bytes_first [] tl None (len (x7b :: tl) - 1)) as Hfirst.
  change ([] ++ x7b :: tl) with (x7b :: tl) in Hfirst.
  change (len (@nil byte)) with 0 in Hfirst.
  unfold scan_limit in Hfirst. rewrite slice_full in Hfirst.
  replace (len (x7b :: tl) - 1 + 1) with (len (x7b :: tl)) in Hfirst by lia.
  rewrite slice_full in Hfirst. apply Hfirst; [apply not_elem_of_nil | done].
Qed.

(** X2: what the scanner returns is a piece of the buffer that starts with
    an opening brace and ends with a closing one, at least two bytes long,
    and the scanner applied to it returns it whole. *)
Theorem find_json_bytes_rescan (data : bytes) (m : option Z) (jb : bytes) :
  find_json_bytes data m = Some jb ->
  head jb = Some x7b /\ last jb = Some x7d /\ 2 <= len jb
  /\ (exists pre post, data = pre ++ jb ++ post)
  /\ find_json_bytes jb None = Some jb.
Proof.
  intros (s & i & Hc & ->)%find_json_bytes_closes.
  destruct (closes_slice data m s i Hc) as (Hlen & Hhead & Hlast & Hw & Hlt & Hdata).
  split; [done|]. split; [done|]. split; [lia|]. split; [eauto|].
  apply find_json_bytes_whole; [done|]. rewrite Hw. f_equal. lia.
Qed.

(** X3: under a scan-length limit [k] the returned slice is never longer
    than [k]; a limit below 2 returns nothing. *)
Theorem find_json_bytes_within_limit (data : bytes) (k : Z) :
  (forall jb, find_json_bytes data (Some k) = Some jb -> 2 <= len jb <= k)
  /\ (k < 2 -> find_json_bytes data (Some k) = None).
Proof.
  assert (forall jb, find_json_bytes data (Some k) = Some jb -> 2 <= len jb <= k)
    as Hbound.
  { intros jb (s & i & Hc & ->)%find_json_bytes_closes.
    destruct (closes_slice data (Some k) s i Hc) as (Hlen & _ & _ & _ & Hlt & _).
    unfold scan_limit in Hlt. lia. }
  split; [done|]. intros Hk.
  destruct (find_json_bytes data (Some k)) as [jb|] eqn:E; [|done].
  specialize (Hbound jb eq_refl). lia.
Qed.

Lemma find_json_bytes_within_limit_witness :
  find_json_bytes (blit "{{}}") (Some 1) = None.
Proof. apply (proj2 (find_json_bytes_within_limit (blit "{{}}") 1)). lia. Defined.

(** X4: any object that walks from its opening brace to depth zero at its
    last byte is returned exactly, whatever follows it, when nothing before
    it holds an opening brace and the limit covers it. *)
Theorem balanced_object_found (noise1 obj noise2 : bytes) (m : option Z) :
  x7b ∉ noise1 ->
  head obj = Some x7b ->
  walk obj scan_init 0 = Some (len obj - 1) ->
  (forall k, m = Some k -> len obj <= k) ->
  find_json_bytes (noise1 ++ obj ++ noise2) m = Some obj.
Proof.
  intros Hnoise Hhead Hw Hm.
  destruct obj as [|b0 tl] eqn:Eobj; [done|]. injection Hhead as ->.
  rewrite <- Eobj in *.
  set (data := noise1 ++ obj ++ noise2).
  assert (len noise1 + len obj <= scan_limit data m (len noise1)) as Hlim.
  { unfold scan_limit, data. rewrite !len_app.
    pose proof (len_nonneg noise2). destruct m as [k|]; [|lia].
    specialize (Hm k eq_refl). lia. }
  pose proof (walk_window_prefix noise1 obj noise2 _ Hw Hlim) as Hwin.
  fold data in Hwin.
  assert (data = noise1 ++ x7b :: (tl ++ noise2)) as Hdata
    by (unfold data; by rewrite Eobj).
  rewrite Hdata in Hwin |- *.
  rewrite (find_json_bytes_first noise1 (tl ++ noise2) m _ Hnoise Hwin).
  rewrite <- Hdata. unfold data.
  replace (len noise1 + len obj - 1 + 1) with (len noise1 + len obj) by lia.
  by rewrite slice_exact.
Qed.

Lemma balanced_object_found_witness :
  find_json_bytes (blit "PX4}" ++ escaped_object ++ blit "{{fw") (Some 15)
  = Some escaped_object.
Proof.
  apply balanced_object_found.
  - apply (bool_decide_unpack _). vm_compute. exact I.
  - reflexivity.
  - reflexivity.
  - intros k [= <-]. vm_compute. discriminate.
Defined.

(** Inside a string, bytes that are neither a quote nor a backslash leave
    the state as it is. *)
Lemma walk_string_body (body rest : bytes) (d i : Z) :
  x22 ∉ body -> x5c ∉ body ->
  walk (body ++ rest) (mkScan d true false) i
  = walk rest (mkScan d true false) (i + len body).
Proof.
  revert i. induction body as [|c body IH]; intros i Hq Hb.
  { simpl. f_equal. unfold len. simpl. lia. }
  apply not_elem_of_cons in Hq as [Hq1 Hq2].
  apply not_elem_of_cons in Hb as [Hb1 Hb2].
  cbn [app walk]. unfold scan_step. simpl.
  rewrite (proj2 (byte_eqb_neq c x5c)), (proj2 (byte_eqb_neq c x22)) by done.
  rewrite IH by done. f_equal. unfold len. simpl. lia.
Qed.

(** X5: braces inside a string literal do not count: an object whose only
    member is a string is returned whole whatever the string holds, as long
    as it holds no quote and no backslash. *)
Theorem braces_in_string_ignored (noise1 body noise2 : bytes) :
  x7b ∉ noise1 -> x22 ∉ body -> x5c ∉ body ->
  find_json_bytes (noise1 ++ ([x7b; x22] ++ body ++ [x22; x7d]) ++ noise2) None
  = Some ([x7b; x22] ++ body ++ [x22; x7d]).
Proof.
  intros Hnoise Hq Hb.
  set (obj := [x7b; x22] ++ body ++ [x22; x7d]).
  assert (len obj = len body + 4) as Hlen.
  { unfold obj. rewrite !len_app. unfold len. simpl. lia. }
  assert (walk obj scan_init 0 = Some (len obj - 1)) as Hw.
  { rewrite Hlen. unfold obj.
    change (walk ([x7b; x22] ++ body ++ [x22; x7d]) scan_init 0)
      with (walk (body ++ [x22; x7d]) (mkScan 1 true false) (0 + 1 + 1)).
    rewrite walk_string_body by done.
    change (walk [x22; x7d] (mkScan 1 true false) (0 + 1 + 1 + len body))
      with (Some (0 + 1 + 1 + len body + 1)).
    f_equal. lia. }
  set (data := noise1 ++ obj ++ noise2).
  assert (len noise1 + len obj <= scan_limit data None (len noise1)) as Hlim.
  { unfold scan_limit, data. rewrite !len_app. pose proof (len_nonneg noise2). lia. }
  pose proof (walk_window_prefix noise1 obj noise2 _ Hw Hlim) as Hwin.
  fold data in Hwin.
  assert (data = noise1 ++ x7b :: ((x22 :: body ++ [x22; x7d]) ++ noise2)) as Hdata
    by done.
  rewrite Hdata in Hwin |- *.
  rewrite (find_json_bytes_first noise1 _ None _ Hnoise Hwin).
  rewrite <- Hdata. unfold data.
  replace (len noise1 + len obj - 1 + 1) with (len noise1 + len obj) by lia.
  by rewrite slice_exact.
Qed.

Lemma braces_in_string_ignored_witness :
  find_json_bytes (blit "PX4" ++ ([x7b; x22] ++ blit "}{}}" ++ [x22; x7d]) ++ blit "}")
    None
  = Some ([x7b; x22] ++ blit "}{}}" ++ [x22; x7d]).
Proof.
  apply braces_in_string_ignored; apply (bool_decide_unpack _); vm_compute; exact I.
Defined.

(** ** Buffers without an object, and the legacy fallback *)

Lemma find_at_skip_byte (c : byte) (noise rest : bytes) (i : Z) :
  c ∉ noise ->
  find_at [c] (noise ++ c :: rest) i = i + len noise.
Proof.
  revert i. induction noise as [|h noise IH]; intros i Hnot.
  - simpl. rewrite (proj2 (byte_eqb_eq c c)) by done. unfold len. simpl. lia.
  - apply not_elem_of_cons in Hnot as [Hc Hn]. cbn [app find_at].
    assert (startswith [c] (h :: noise ++ c :: rest) = false) as ->.
    { simpl. by rewrite (proj2 (byte_eqb_neq c h)). }
    rewrite IH by done. unfold len. simpl. lia.
Qed.

Lemma bytes_find_absent (data : bytes) (c : byte) :
  c ∉ data -> bytes_find data [c] 0 = -1.
Proof.
  intros Hc. destruct (bytes_find_single data c 0) as [[Hf _]|(_ & Hat & _)];
    [lia | done |].
  exfalso. apply Hc. by apply list_elem_of_lookup; eexists.
Qed.

Lemma find_json_bytes_no_brace (data : bytes) (m : option Z) :
  x7b ∉ data -> find_json_bytes data m = None.
Proof.
  intros Hc. unfold find_json_bytes. by rewrite bytes_find_absent.
Qed.

Lemma elem_of_take_inv {A} (x : A) (n : nat) (l : list A) : x ∈ take n l -> x ∈ l.
Proof.
  intros (i & Hi & _)%elem_of_take. apply list_elem_of_lookup. by exists i.
Qed.

Lemma elem_of_drop_inv {A} (x : A) (n : nat) (l : list A) : x ∈ drop n l -> x ∈ l.
Proof.
  intros [i Hi]%list_elem_of_lookup. rewrite lookup_drop in Hi.
  apply list_elem_of_lookup. by eexists.
Qed.

Lemma legacy_candidate_prefix (data candidate : bytes) :
  legacy_candidate data = Some candidate ->
  exists n post, candidate = take n data /\ data = candidate ++ post /\ post <> []
    /\ x00 ∉ candidate.
Proof.
  unfold legacy_candidate.
  destruct (bytes_find_single data x00 0) as [[Hf Hno]|(Hle & Hat & Hno)]; [lia|..].
  - rewrite Hf. simpl.
    destruct (bytes_find_range data [x0a; x0a] 0) as [Hd|Hd]; [done|lia|..].
    { by rewrite Hd. }
    destruct (bytes_find data [x0a; x0a] 0 =? -1) eqn:E; [done|].
    simpl. intros [= <-]. unfold slice. rewrite Z.sub_0_r.
    change (Z.to_nat 0) with 0%nat. rewrite drop_0.
    eexists _, (drop _ data). split; [done|]. split; [by rewrite take_drop|].
    split.
    + intros Hnil. apply (f_equal length) in Hnil. rewrite length_drop in Hnil.
      unfold len in Hd. simpl in Hnil. lia.
    + intros Hin. apply list_elem_of_lookup in Hin as [j Hj].
      apply lookup_take_Some in Hj as [Hj _]. apply (Hno (Z.of_nat j)); [lia|].
      by rewrite Nat2Z.id.
  - set (p := bytes_find data [x00] 0) in *.
    destruct (p =? -1) eqn:E; [apply Z.eqb_eq in E; lia|].
    simpl. intros [= <-]. unfold slice. rewrite Z.sub_0_r.
    change (Z.to_nat 0) with 0%nat. rewrite drop_0.
    eexists _, (drop _ data). split; [done|]. split; [by rewrite take_drop|].
    split.
    + intros Hnil. apply (f_equal length) in Hnil. rewrite length_drop in Hnil.
      apply lookup_lt_Some in Hat. simpl in Hnil. lia.
    + intros Hin. apply list_elem_of_lookup in Hin as [j Hj].
      apply lookup_take_Some in Hj as [Hj Hlt]. apply (Hno (Z.of_nat j)); [lia|].
      by rewrite Nat2Z.id.
Qed.

Lemma legacy_json_bytes_no_brace (data : bytes) :
  x7b ∉ data -> legacy_json_bytes data = None.
Proof.
  intros Hc. unfold legacy_json_bytes.
  destruct (legacy_candidate data) as [candidate|] eqn:E; [|done].
  destruct (legacy_candidate_prefix _ _ E) as (n & post & -> & _).
  destruct (take n data) as [|b0 tl] eqn:Et; [done|]. rewrite <- Et.
  rewrite bytes_find_absent; [done|].
  intros Hin. apply Hc. by eapply elem_of_take_inv.
Qed.

Section FallbackProps.
Context {env : Env}.

(** X6: a buffer that holds no opening brace gives no metadata, by the
    scanner or by the fallback, and the run writes nothing. *)
Theorem no_brace_no_artifacts (data : bytes) (m : option Z) (fs : filesystem) :
  x7b ∉ data ->
  find_json_bytes data m = None
  /\ quick_extract_tags (Some data) = Ok None
  /\ main (Some data) fs = Ok fs.
Proof.
  intros Hc. split; [by apply find_json_bytes_no_brace|].
  assert (quick_extract_tags (Some data) = Ok None) as Hq.
  { unfold quick_extract_tags.
    by rewrite find_json_bytes_no_brace, legacy_json_bytes_no_brace. }
  split; [done|]. unfold main. by rewrite Hq.
Qed.

(** X9: when the parsed object holds [airframe_xml] with a value that has
    no length (null, a boolean or a number), line 135 raises: the run ends
    in an exception before the writer is called. *)
Theorem airframe_without_length_raises (data jb : bytes) (metadata : dict)
    (v : json) (fs : filesystem) :
  find_json_bytes data None = Some jb ->
  parse_metadata jb = Some metadata ->
  dict_get metadata (slit "airframe_xml") = Some v ->
  sized v = false ->
  quick_extract_tags (Some data) = Crash /\ main (Some data) fs = Crash.
Proof.
  intros Hf Hp Hg Hs.
  assert (quick_extract_tags (Some data) = Crash) as Hq.
  { unfold quick_extract_tags. rewrite Hf.
    destruct (find_json_bytes_closes _ _ _ Hf) as (s & i & Hc & ->).
    destruct (closes_slice _ _ _ _ Hc) as (Hlen & _).
    destruct (slice data s (i + 1)) as [|b0 tl] eqn:E.
    { unfold len in Hlen. simpl in Hlen. destruct Hc as (_ & _ & Hw).
      apply walk_first_byte in Hw. lia. }
    by rewrite Hp, Hg, Hs. }
  split; [done|]. unfold main. by rewrite Hq.
Qed.
End FallbackProps.

Lemma no_brace_no_artifacts_witness :
  find_json_bytes (blit "PX4 firmware}") (Some 5) = None
  /\ @quick_extract_tags table_env (Some (blit "PX4 firmware}")) = Ok None
  /\ @main table_env (Some (blit "PX4 firmware}")) empty_fs = Ok empty_fs.
Proof.
  apply (@no_brace_no_artifacts table_env).
  apply (bool_decide_unpack _). vm_compute. exact I.
Defined.

Lemma airframe_without_length_raises_witness :
  @quick_extract_tags airframe_env (Some (blit "PX4" ++ jlit "{'airframe_xml':7}"))
  = Crash
  /\ @main airframe_env (Some (blit "PX4" ++ jlit "{'airframe_xml':7}")) empty_fs
     = Crash.
Proof.
  apply (@airframe_without_length_raises airframe_env _
           (jlit "{'airframe_xml':7}") [(slit "airframe_xml", JInt 7)] (JInt 7));
    reflexivity.
Defined.

(** X7: the fallback cuts the buffer at its first NUL byte and returns
    everything from the first opening brace before it, balanced or not. *)
Theorem legacy_fallback_up_to_nul (a b c : bytes) :
  x7b ∉ a -> x00 ∉ a -> x00 ∉ b ->
  legacy_json_bytes (a ++ x7b :: b ++ x00 :: c) = Some (x7b :: b).
Proof.
  intros Ha7 Ha0 Hb0. unfold legacy_json_bytes, legacy_candidate.
  assert (a ++ x7b :: b ++ x00 :: c = (a ++ x7b :: b) ++ x00 :: c) as Hd
    by by rewrite <- app_assoc.
  assert (bytes_find (a ++ x7b :: b ++ x00 :: c) [x00] 0 = len (a ++ x7b :: b)) as ->.
  { unfold bytes_find. change (Z.to_nat 0) with 0%nat. rewrite drop_0, Hd.
    rewrite find_at_skip_byte; [lia|].
    intros [Hin|Hin]%elem_of_app; [done|].
    apply elem_of_cons in Hin as [?|?]; done. }
  pose proof (len_nonneg (a ++ x7b :: b)) as Hn.
  assert ((len (a ++ x7b :: b) =? -1) = false) as -> by (apply Z.eqb_neq; lia).
  simpl negb. cbv iota.
  assert (slice (a ++ x7b :: b ++ x00 :: c) 0 (len (a ++ x7b :: b)) = a ++ x7b :: b)
    as ->.
  { unfold slice, len. change (Z.to_nat 0) with 0%nat.
    rewrite drop_0, Z.sub_0_r, Nat2Z.id, Hd. by rewrite take_app_length. }
  destruct (a ++ x7b :: b) as [|h t] eqn:E; [by destruct a|]. rewrite <- E.
  assert (bytes_find (a ++ x7b :: b) [x7b] 0 = len a) as ->.
  { unfold bytes_find. change (Z.to_nat 0) with 0%nat. rewrite drop_0.
    rewrite find_at_skip_byte by done. lia. }
  pose proof (len_nonneg a).
  assert ((len a =? -1) = false) as -> by (apply Z.eqb_neq; lia).
  simpl. unfold len. by rewrite Nat2Z.id, drop_app_length.
Qed.

Lemma legacy_fallback_up_to_nul_witness :
  legacy_json_bytes (blit "PX4" ++ x7b :: blit "'board_id':9" ++ x00 :: blit "}{}")
  = Some (x7b :: blit "'board_id':9").
Proof.
  apply legacy_fallback_up_to_nul; apply (bool_decide_unpack _); vm_compute; exact I.
Defined.

(** X8: whatever the fallback returns starts with an opening brace, holds
    no NUL byte, and is a piece of the buffer with no brace before it and at
    least one byte cut off after it; with neither a NUL byte nor two
    newlines in a row in the buffer, the fallback returns nothing. *)
Theorem legacy_fallback_shape (data : bytes) :
  (forall jb, legacy_json_bytes data = Some jb ->
     head jb = Some x7b /\ (x00 ∉ jb)
     /\ (exists pre post, data = pre ++ jb ++ post /\ (x7b ∉ pre) /\ post <> []))
  /\ (x00 ∉ data -> bytes_find data [x0a; x0a] 0 = -1 ->
      legacy_json_bytes data = None).
Proof.
  split.
  - intros jb. unfold legacy_json_bytes.
    destruct (legacy_candidate data) as [candidate|] eqn:E; [|done].
    destruct (legacy_candidate_prefix _ _ E) as (n & post & _ & Hdata & Hpost & Hnul).
    destruct candidate as [|h t] eqn:Ec; [done|]. rewrite <- Ec in *.
    destruct (bytes_find_single candidate x7b 0) as [[Hf _]|(Hle & Hat & Hno)]; [lia|..].
    { by rewrite Hf. }
    set (start := bytes_find candidate [x7b] 0) in *.
    destruct (start =? -1) eqn:Es; [apply Z.eqb_eq in Es; lia|].
    simpl. intros [= <-]. split; [|split].
    + by rewrite (drop_S _ _ _ Hat).
    + intros Hin. apply Hnul. by eapply elem_of_drop_inv.
    + exists (take (Z.to_nat start) candidate), post.
      split; [|split; [|done]].
      * by rewrite app_assoc, take_drop.
      * intros Hin. apply list_elem_of_lookup in Hin as [j Hj].
        apply lookup_take_Some in Hj as [Hj Hlt].
        apply (Hno (Z.of_nat j)); [lia|]. by rewrite Nat2Z.id.
  - intros Hnul Hdn. unfold legacy_json_bytes, legacy_candidate.
    by rewrite bytes_find_absent, Hdn.
Qed.

Lemma legacy_fallback_shape_witness :
  legacy_json_bytes (blit "PX4{'board_id':9") = None.
Proof.
  apply (proj2 (legacy_fallback_shape (blit "PX4{'board_id':9"))).
  - apply (bool_decide_unpack _). vm_compute. exact I.
  - reflexivity.
Defined.

Lemma find_json_bytes_rescan_witness :
  head escaped_object = Some x7b /\ last escaped_object = Some x7d
  /\ 2 <= len escaped_object
  /\ (exists pre post, blit "PX4" ++ escaped_object ++ blit "}" = pre ++ escaped_object ++ post)
  /\ find_json_bytes escaped_object None = Some escaped_object.
Proof.
  apply (find_json_bytes_rescan (blit "PX4" ++ escaped_object ++ blit "}") (Some 20)).
  reflexivity.
Defined.

(** ** The writer: where a field goes *)

Section RoutingProps.
Context {env : Env}.

(** X10: a value that is neither null nor a string (a boolean, a number, a
    list, an object) is never written to a file of its own, whatever its
    key: it goes to the aggregate record and the file system is left as it
    is. *)
Theorem non_string_goes_to_record (output_dir key : str) (val : json)
    (fs : filesystem) (remaining : dict) :
  val <> JNull ->
  (forall s, val <> JStr s) ->
  save_field output_dir key val fs remaining = Ok (fs, dict_set remaining key val).
Proof.
  intros Hnull Hstr. unfold save_field, try_base64.
  destruct val as [| | | |s| |]; try done. by destruct (Hstr s).
Qed.

(** X11: a string of at most 100 characters with no newline, under a key
    that does not end in [_xml], is never decoded and never written to a
    file, base64 or not: it goes to the aggregate record. *)
Theorem short_string_goes_to_record (output_dir key s : str) (fs : filesystem)
    (remaining : dict) :
  len s <= 100 ->
  10%N ∉ s ->
  endswith key (slit "_xml") = false ->
  save_field output_dir key (JStr s) fs remaining
  = Ok (fs, dict_set remaining key (JStr s)).
Proof.
  intros Hlen Hnl Hkey. unfold save_field, try_base64, is_b64_candidate.
  assert ((100 <? len s) = false) as -> by (apply Z.ltb_ge; lia).
  simpl. rewrite Hkey.
  assert (existsb (N.eqb 10) s = false) as ->.
  { apply not_true_iff_false. intros (c & Hin & Hc%N.eqb_eq)%existsb_exists.
    subst c. apply Hnl. by apply list_elem_of_In. }
  assert ((200 <? len s) = false) as -> by (apply Z.ltb_ge; lia).
  done.
Qed.

(** X12: a string under a key that ends in [_xml] never reaches the
    aggregate record: the turn raises, or writes exactly one file, [key.xml]
    or [key.bin], and leaves the record as it is. *)
Theorem xml_key_never_in_record (output_dir key s : str) (fs : filesystem)
    (remaining : dict) :
  endswith key (slit "_xml") = true ->
  save_field output_dir key (JStr s) fs remaining = Crash
  \/ exists c,
       save_field output_dir key (JStr s) fs remaining
       = Ok (put (path_join output_dir (key ++ slit ".xml")) c fs, remaining)
       \/ save_field output_dir key (JStr s) fs remaining
          = Ok (put (path_join output_dir (key ++ slit ".bin")) c fs, remaining).
Proof.
  intros Hkey.
  assert (key <> slit "image") as Himg by (intros ->; by vm_compute in Hkey).
  assert (text_ext key = slit "xml") as Hext by (unfold text_ext; by rewrite Hkey).
  unfold save_field, try_base64, is_long_text. rewrite Hkey, Hext. simpl orb.
  unfold save_decoded, save_xml_payload, write_text, write_bytes.
  rewrite (bool_decide_eq_false_2 _ Himg).
  change (key ++ slit "." ++ slit "xml") with (key ++ slit ".xml").
  repeat case_match; simplify_eq; eauto.
Qed.
End RoutingProps.

Lemma non_string_goes_to_record_witness :
  @save_field table_env (slit "extracted") (slit "image") (JList [JInt 1; JInt 2])
    empty_fs []
  = Ok (empty_fs, dict_set [] (slit "image") (JList [JInt 1; JInt 2])).
Proof. apply (@non_string_goes_to_record table_env); done. Defined.

Lemma short_string_goes_to_record_witness :
  @save_field table_env (slit "extracted") (slit "image")
    (JStr (ascii_str (b64encode (blit "BINARYDATA")))) empty_fs []
  = Ok (empty_fs,
        dict_set [] (slit "image") (JStr (ascii_str (b64encode (blit "BINARYDATA"))))).
Proof.
  apply (@short_string_goes_to_record table_env).
  - vm_compute. discriminate.
  - apply (bool_decide_unpack _). vm_compute. exact I.
  - reflexivity.
Defined.

Lemma xml_key_never_in_record_witness :
  @save_field table_env (slit "extracted") (slit "notes_xml") (JStr (slit "<a/>"))
    empty_fs [] = Crash
  \/ exists c,
       @save_field table_env (slit "extracted") (slit "notes_xml") (JStr (slit "<a/>"))
         empty_fs []
       = Ok (put (path_join (slit "extracted") (slit "notes_xml" ++ slit ".xml")) c
               empty_fs, [])
       \/ @save_field table_env (slit "extracted") (slit "notes_xml")
            (JStr (slit "<a/>")) empty_fs []
          = Ok (put (path_join (slit "extracted") (slit "notes_xml" ++ slit ".bin")) c
                  empty_fs, []).
Proof. apply (@xml_key_never_in_record table_env). reflexivity. Defined.

(** ** The writer: decoding and decompression *)

(** Line breaks in a base64 text are skipped by the decoder. *)
Lemma a2b_base64_skip_breaks (s : str) (quad_pos : nat) (l : N) (p : nat) :
  forallb in_class s = true ->
  a2b_base64 (u8 <$> s) quad_pos l p
  = a2b_base64 (u8 <$> filter (fun c => c ∉ line_breaks) s) quad_pos l p.
Proof.
  revert quad_pos l p. induction s as [|c s IH]; intros quad_pos l p; [done|].
  simpl forallb. intros [Hc Hs]%andb_true_iff. rewrite filter_cons.
  destruct (decide (c ∉ line_breaks)) as [Hk|Hb].
  - cbn [fmap list_fmap a2b_base64]. rewrite !IH by done.
    repeat case_match; try done; by rewrite IH.
  - assert (c = 10%N \/ c = 13%N) as Hcases.
    { destruct (decide (c ∈ line_breaks)) as [Hin|Hnot]; [|done].
      unfold line_breaks in Hin. set_unfold. tauto. }
    cbn [fmap list_fmap].
    destruct Hcases as [-> | ->];
      [change (u8 10) with x0a | change (u8 13) with x0d];
      cbn [a2b_base64]; by apply IH.
Qed.

(** [os.path.join] with a relative second part: the directory, a
    separator that depends on the directory alone, then the name. *)
Lemma path_join_relative (d : str) :
  exists sep, forall b, head b <> Some 47%N -> path_join d b = d ++ sep ++ b.
Proof.
  unfold path_join. destruct (last d) as [c|] eqn:El.
  - destruct (decide (c = 47%N)) as [->|Hc].
    + exists []. intros b Hb. destruct b as [|[|p] b]; try done.
      repeat case_match; naive_solver.
    + exists (slit "/"). intros b Hb.
      assert (match c with 47%N => d ++ b | _ => d ++ slit "/" ++ b end
              = d ++ slit "/" ++ b) as Hsep by (repeat case_match; naive_solver).
      destruct b as [|[|p] b]; try done. repeat case_match; naive_solver.
  - exists []. intros b Hb. destruct b as [|[|p] b]; try done.
    repeat case_match; naive_solver.
Qed.

Lemma path_join_relative_inj (d a b : str) :
  head a <> Some 47%N -> head b <> Some 47%N ->
  path_join d a = path_join d b -> a = b.
Proof.
  intros Ha Hb. destruct (path_join_relative d) as [sep Hsep].
  rewrite !Hsep by done. intros He. by repeat apply app_inv_head in He.
Qed.



Section CascadeProps.
Context {env : Env}.

(** X13: the three signatures exclude one another, so at most one attempt
    of [try_decompress] ever runs: a stream with the gzip signature that
    gzip rejects is not tried as zlib or zip, and so on down the list. *)
Theorem try_decompress_by_signature (b : bytes) :
  try_decompress b
  = if startswith [x1f; x8b] b then gzip_decompress b
    else if (2 <=? len b) && startswith [x78] b then zlib_decompress b
    else if startswith [x50; x4b; x03; x04] b then
      match ZipFile b with
      | Some z => match namelist z with name :: _ => zip_read z name | [] => None end
      | None => None
      end
    else None.
Proof.
  assert (match b with b0 :: _ => Byte.eqb b0 x78 | [] => false end
          = startswith [x78] b) as Hz.
  { destruct b as [|b0 tl]; [done|]. simpl. rewrite andb_true_r.
    destruct (Byte.eqb b0 x78) eqn:E.
    - apply byte_eqb_eq in E as ->. done.
    - symmetry. apply byte_eqb_neq. apply byte_eqb_neq in E. congruence. }
  assert (startswith [x1f; x8b] b = true ->
          startswith [x78] b = false /\ startswith [x50; x4b; x03; x04] b = false)
    as Hg.
  { destruct b as [|b0 tl]; [done|]. simpl.
    intros [<-%byte_eqb_eq _]%andb_true_iff. done. }
  assert (startswith [x78] b = true -> startswith [x50; x4b; x03; x04] b = false)
    as Hzp.
  { destruct b as [|b0 tl]; [done|]. simpl.
    intros [<-%byte_eqb_eq _]%andb_true_iff. done. }
  unfold try_decompress, attempt_gzip, attempt_zlib, attempt_zip. rewrite Hz.
  destruct (startswith [x1f; x8b] b) eqn:Eg.
  - destruct (Hg eq_refl) as [-> ->]. rewrite andb_false_r.
    by destruct (gzip_decompress b).
  - destruct (startswith [x78] b) eqn:Ez.
    + rewrite (Hzp eq_refl). rewrite andb_true_r.
      destruct (2 <=? len b); [|done]. by destruct (zlib_decompress b).
    + rewrite andb_false_r.
      destruct (startswith [x50; x4b; x03; x04] b); [|done].
      by repeat case_match.
Qed.

(** X14: line breaks inside the base64 text of an image do not change what
    is written: a text that is the standard encoding of a payload once its
    newlines and carriage returns are removed, and is longer than 100
    characters, leaves [firmware.bin] holding exactly the payload. *)
Theorem wrapped_base64_image (output_dir s : str) (payload : bytes)
    (fs : filesystem) (remaining : dict) :
  filter (fun c => c ∉ line_breaks) s = ascii_str (b64encode payload) ->
  100 < len s ->
  openable (path_join output_dir (slit "firmware.bin")) = true ->
  save_field output_dir (slit "image") (JStr s) fs remaining
  = Ok (put (path_join output_dir (slit "firmware.bin")) (FBytes payload) fs,
        remaining).
Proof.
  intros Hfilter Hlen Hopen.
  assert (forallb in_class s = true) as Hclass.
  { apply forallb_forall. intros c Hc%list_elem_of_In.
    destruct (decide (c ∈ line_breaks)) as [Hb|Hk].
    - apply in_class_spec. by right.
    - assert (c ∈ ascii_str (b64encode payload)) as Hin.
      { rewrite <- Hfilter. by apply list_elem_of_filter. }
      pose proof (b64encode_in_class payload) as Hall.
      rewrite forallb_forall in Hall. apply Hall. by apply list_elem_of_In. }
  assert (is_b64_candidate (JStr s) = true) as Hcand.
  { simpl. apply andb_true_iff. split; [by apply Z.ltb_lt|].
    apply b64_re_match_spec. split; [|done]. intros ->. unfold len in Hlen.
    simpl in Hlen. lia. }
  apply (save_field_plain_name output_dir (slit "image") s payload); [done| |done|done].
  unfold b64decode. rewrite a2b_base64_skip_breaks, Hfilter by done.
  rewrite u8_ascii_str. apply b64decode_b64encode.
Qed.

(** X15: two fields can land on the same file.  With an [image] field
    followed by a [firmware] field, both base64, both are written to
    [firmware.bin] and the second one wins: the image is lost. *)
Theorem firmware_bin_collision (output_dir sa sb : str) (a b : bytes)
    (fs : filesystem) :
  is_b64_candidate (JStr sa) = true -> b64decode (u8 <$> sa) = Some a ->
  is_b64_candidate (JStr sb) = true -> b64decode (u8 <$> sb) = Some b ->
  makedirs_ok output_dir = true ->
  openable (path_join output_dir (slit "firmware.bin")) = true ->
  openable (path_join output_dir (slit "metadata.json")) = true ->
  exists fs',
    save_metadata_files [(slit "image", JStr sa); (slit "firmware", JStr sb)]
      output_dir fs = Ok fs'
    /\ fs_files fs' !! path_join output_dir (slit "firmware.bin") = Some (FBytes b)
    /\ forall p, p <> path_join output_dir (slit "firmware.bin") ->
                 p <> path_join output_dir (slit "metadata.json") ->
                 fs_files fs' !! p = fs_files fs !! p.
Proof.
  intros Hca Hda Hcb Hdb Hmk Hfw Hmeta.
  unfold save_metadata_files, makedirs. rewrite Hmk. cbn [save_fields].
  rewrite (save_field_plain_name output_dir (slit "image") sa a) by done.
  rewrite (save_field_plain_name output_dir (slit "firmware") sb b) by done.
  change (if bool_decide (slit "firmware" = slit "image") then slit "firmware.bin"
          else slit "firmware" ++ slit ".bin") with (slit "firmware.bin").
  change (if bool_decide (slit "image" = slit "image") then slit "firmware.bin"
          else slit "image" ++ slit ".bin") with (slit "firmware.bin").
  unfold dump_json. rewrite Hmeta. simpl. eexists. split; [done|].
  simpl. split.
  - destruct (decide (path_join output_dir (slit "metadata.json")
                      = path_join output_dir (slit "firmware.bin"))) as [He|Hne].
    + by apply path_join_relative_inj in He.
    + rewrite lookup_insert_ne by done. by rewrite lookup_insert_eq.
  - intros p Hp1 Hp2. by rewrite !lookup_insert_ne.
Qed.
End CascadeProps.

Lemma wrapped_base64_image_witness :
  @save_field table_env (slit "extracted") (slit "image") (JStr wrapped_image)
    empty_fs []
  = Ok (put (path_join (slit "extracted") (slit "firmware.bin"))
          (FBytes binarydata_x8) empty_fs, []).
Proof.
  apply (@wrapped_base64_image table_env).
  - vm_compute. reflexivity.
  - vm_compute. reflexivity.
  - reflexivity.
Defined.

Lemma firmware_bin_collision_witness :
  exists fs',
    @save_metadata_files table_env two_binaries (slit "extracted") empty_fs = Ok fs'
    /\ fs_files fs' !! path_join (slit "extracted") (slit "firmware.bin")
       = Some (FBytes gz_xml)
    /\ forall p, p <> path_join (slit "extracted") (slit "firmware.bin") ->
                 p <> path_join (slit "extracted") (slit "metadata.json") ->
                 fs_files fs' !! p = fs_files empty_fs !! p.
Proof.
  apply (@firmware_bin_collision table_env (slit "extracted")
           (ascii_str (b64encode binarydata_x8)) (ascii_str (b64encode gz_xml))
           binarydata_x8 gz_xml empty_fs);
    vm_compute; reflexivity.
Defined.

(** ** The writer: paths and failures *)

Lemma save_fields_crash {env : Env} (output_dir : str) (items : dict) (key : str)
    (val : json) :
  (key, val) ∈ items ->
  (forall fs remaining, save_field output_dir key val fs remaining = Crash) ->
  forall fs remaining, save_fields output_dir items fs remaining = Crash.
Proof.
  intros Hin Hcrash. induction items as [|[k v] items IH]; intros fs remaining.
  { by apply elem_of_nil in Hin. }
  cbn [save_fields]. apply elem_of_cons in Hin as [[= <- <-]|Hin].
  - by rewrite Hcrash.
  - destruct (save_field output_dir k v fs remaining) as [[fs' rem']|]; [|done].
    by apply IH.
Qed.

Section FailureProps.
Context {env : Env}.


(** X17: a string that holds a lone surrogate makes the writer raise,
    wherever it stands in the metadata: as a long text its file cannot be
    encoded, as a small scalar [metadata.json] cannot. *)
Theorem lone_surrogate_raises (metadata : dict) (output_dir key s : str)
    (fs : filesystem) :
  NoDup metadata.*1 ->
  (key, JStr s) ∈ metadata ->
  encodable s = false ->
  save_metadata_files metadata output_dir fs = Crash.
Proof.
  intros Hnd Hin Henc.
  assert (is_b64_candidate (JStr s) = false) as Hc.
  { destruct (is_b64_candidate (JStr s)) eqn:E; [|done].
    by rewrite (candidate_encodable s E) in Henc. }
  unfold save_metadata_files, makedirs. destruct (makedirs_ok output_dir); [|done].
  destruct (is_long_text key (JStr s)) eqn:El.
  - rewrite (save_fields_crash output_dir metadata key (JStr s)); [done|done|].
    intros fs0 rem. unfold save_field.
    rewrite (try_base64_not_candidate _ _ _ _ Hc), El.
    unfold write_text. rewrite Henc. by destruct (openable _).
  - destruct (save_fields_frame output_dir metadata []) as [Hcr|(ws & Hok)];
      [by rewrite Hcr|].
    rewrite Hok. unfold dump_json.
    assert (dict_encodable (collect output_dir [] metadata) = false) as ->;
      [|by rewrite andb_false_r].
    rewrite collect_filter by done. simpl.
    apply not_true_iff_false. unfold dict_encodable. rewrite forallb_forall.
    intros Hall.
    assert (kept output_dir (key, JStr s) = true) as Hk.
    { unfold kept. cbn [fst snd].
      by rewrite (try_base64_not_candidate _ _ _ _ Hc), El. }
    specialize (Hall (key, JStr s)). simpl in Hall.
    rewrite Henc, andb_false_r in Hall. discriminate Hall.
    apply list_elem_of_In, list_elem_of_filter. done.
Qed.

Lemma save_fields_scalars (output_dir : str) (items remaining : dict)
    (fs : filesystem) :
  Forall (fun kv => snd kv <> JNull /\ spec_scalar (fst kv) (snd kv) = true) items ->
  NoDup (remaining.*1 ++ items.*1) ->
  save_fields output_dir items fs remaining = Ok (fs, remaining ++ items).
Proof.
  revert remaining. induction items as [|[k v] items IH]; intros remaining Hall Hnd.
  { simpl. by rewrite app_nil_r. }
  apply Forall_cons in Hall as [[Hn Hs] Hall]. simpl in Hn, Hs, Hnd.
  cbn [save_fields]. rewrite save_field_scalar by done.
  apply NoDup_app in Hnd as (Hr & Hdis & [Hk Hi]%NoDup_cons).
  rewrite dict_set_fresh.
  2:{ intros Hin. apply (Hdis k Hin). by left. }
  rewrite IH, <- app_assoc; [done|done|].
  rewrite fmap_app, <- app_assoc. simpl.
  apply NoDup_app. split; [done|]. split; [done|]. by apply NoDup_cons.
Qed.

(** X18: a metadata object made only of small scalars is written whole:
    [metadata.json] holds the object as it was parsed, key for key and in
    order, and no other file is written. *)
Theorem scalar_object_stored_whole (metadata : dict) (output_dir : str)
    (fs : filesystem) :
  NoDup metadata.*1 ->
  Forall (fun kv => snd kv <> JNull /\ spec_scalar (fst kv) (snd kv) = true)
    metadata ->
  dict_encodable metadata = true ->
  makedirs_ok output_dir = true ->
  openable (path_join output_dir (slit "metadata.json")) = true ->
  save_metadata_files metadata output_dir fs
  = Ok (put (path_join output_dir (slit "metadata.json")) (FJson metadata)
          (mkdir output_dir fs)).
Proof.
  intros Hnd Hall Henc Hmk Hmeta. unfold save_metadata_files, makedirs.
  rewrite Hmk, (save_fields_scalars output_dir metadata []) by done.
  unfold dump_json. change ([] ++ metadata) with metadata.
  by rewrite Hmeta, Henc.
Qed.
End FailureProps.


Lemma lone_surrogate_raises_witness :
  @save_metadata_files table_env
    [(slit "board_id", JInt 9); (slit "description", JStr surrogate_text)]
    (slit "extracted") empty_fs = Crash.
Proof.
  apply (@lone_surrogate_raises table_env _ _ (slit "description") surrogate_text).
  - apply (bool_decide_unpack _). vm_compute. exact I.
  - apply list_elem_of_In. vm_compute. tauto.
  - reflexivity.
Defined.

Lemma scalar_object_stored_whole_witness :
  @save_metadata_files table_env board_object (slit "extracted") empty_fs
  = Ok (put (path_join (slit "extracted") (slit "metadata.json")) (FJson board_object)
          (mkdir (slit "extracted") empty_fs)).
Proof.
  apply (@scalar_object_stored_whole table_env).
  - apply (bool_decide_unpack _). vm_compute. exact I.
  - repeat constructor; discriminate.
  - reflexivity.
  - reflexivity.
  - reflexivity.
Defined.

(** ** The writer: the files it touches *)

Section TargetProps.
Context {env : Env}.

Lemma write_bytes_path (q : str) (b : bytes) (fs fs' : filesystem) :
  write_bytes q b fs = Some fs' -> fs' = put q (FBytes b) fs.
Proof. unfold write_bytes. destruct (openable q); by intros [= <-]. Qed.

Lemma write_text_path (q s : str) (fs fs' : filesystem) :
  write_text q s fs = Some fs' -> fs' = put q (FText s) fs.
Proof.
  unfold write_text. destruct (openable q), (encodable s); by intros [= <-].
Qed.





End TargetProps.


(** ** UTF-8: the text of an XML file carries the payload byte for byte *)

Lemma shiftr_small (x k : N) : (x < 2 ^ k)%N -> N.shiftr x k = 0%N.
Proof. intros Hx. rewrite N.shiftr_div_pow2. by apply N.div_small. Qed.

Lemma shiftr_lor_shiftl (h x k : N) :
  (x < 2 ^ k)%N -> N.shiftr (N.lor (N.shiftl h k) x) k = h.
Proof.
  intros Hx. rewrite N.shiftr_lor, N.shiftr_shiftl_l by lia.
  rewrite N.sub_diag, N.shiftl_0_r, shiftr_small by done. apply N.lor_0_r.
Qed.

Lemma land_ones_small (x j : N) : (x < 2 ^ j)%N -> N.land x (N.ones j) = x.
Proof. intros Hx. rewrite N.land_ones. by apply N.mod_small. Qed.

Lemma land_lor_shiftl (h x k j : N) :
  (j <= k)%N ->
  N.land (N.lor (N.shiftl h k) x) (N.ones j) = N.land x (N.ones j).
Proof.
  intros Hj. rewrite N.land_lor_distr_l.
  assert (N.land (N.shiftl h k) (N.ones j) = 0%N) as ->; [|apply N.lor_0_l].
  rewrite N.land_ones, N.shiftl_mul_pow2.
  replace k with (k - j + j)%N by lia.
  rewrite N.pow_add_r, N.mul_assoc. apply N.Div0.mod_mul.
Qed.

Lemma cont_pair_bound (c1 c2 : byte) :
  (N.lor (N.shiftl (cont_bits c1) 6) (cont_bits c2) < 2 ^ 12)%N.
Proof.
  pose proof (cont_bits_bound c1). pose proof (cont_bits_bound c2).
  apply lor_lt_pow2.
  - rewrite N.shiftl_mul_pow2. change (2 ^ 12)%N with 4096%N.
    change (2 ^ 6)%N with 64%N in *. lia.
  - change (2 ^ 12)%N with 4096%N. change (2 ^ 6)%N with 64%N in *. lia.
Qed.

Lemma cont_triple_bound (c1 c2 c3 : byte) :
  (N.lor (N.shiftl (cont_bits c1) 12)
     (N.lor (N.shiftl (cont_bits c2) 6) (cont_bits c3)) < 2 ^ 18)%N.
Proof.
  pose proof (cont_bits_bound c1). pose proof (cont_pair_bound c2 c3).
  apply lor_lt_pow2.
  - rewrite N.shiftl_mul_pow2. change (2 ^ 18)%N with 262144%N.
    change (2 ^ 12)%N with 4096%N. change (2 ^ 6)%N with 64%N in *. lia.
  - change (2 ^ 18)%N with 262144%N. change (2 ^ 12)%N with 4096%N in *. lia.
Qed.

Lemma cont_byte_back : forall c,
  is_cont c = true -> u8 (N.lor 0x80 (cont_bits c)) = c.
Proof.
  by_enumeration
    (all_bytes_1 (fun c => is_cont c = true -> u8 (N.lor 0x80 (cont_bits c)) = c)).
Qed.

Lemma lead2_back : forall b0 c1,
  between 0xC2 0xDF (Byte.to_N b0) = true -> is_cont c1 = true ->
  utf8_encode_char (N.lor (N.shiftl (N.land (Byte.to_N b0) 0x1F) 6) (cont_bits c1))
  = Some [b0; c1].
Proof.
  by_enumeration
    (all_bytes_2 (fun b0 c1 =>
       between 0xC2 0xDF (Byte.to_N b0) = true -> is_cont c1 = true ->
       utf8_encode_char
         (N.lor (N.shiftl (N.land (Byte.to_N b0) 0x1F) 6) (cont_bits c1))
       = Some [b0; c1])).
Qed.

Lemma lead3_back : forall b0,
  between 0xE0 0xEF (Byte.to_N b0) = true ->
  u8 (N.lor 0xE0 (N.land (Byte.to_N b0) 0x0F)) = b0.
Proof.
  by_enumeration
    (all_bytes_1 (fun b0 =>
       between 0xE0 0xEF (Byte.to_N b0) = true ->
       u8 (N.lor 0xE0 (N.land (Byte.to_N b0) 0x0F)) = b0)).
Qed.

Lemma lead4_back : forall b0,
  between 0xF0 0xF4 (Byte.to_N b0) = true ->
  u8 (N.lor 0xF0 (N.land (Byte.to_N b0) 0x07)) = b0.
Proof.
  by_enumeration
    (all_bytes_1 (fun b0 =>
       between 0xF0 0xF4 (Byte.to_N b0) = true ->
       u8 (N.lor 0xF0 (N.land (Byte.to_N b0) 0x07)) = b0)).
Qed.

Lemma utf8_encode_three (b0 c1 c2 : byte) :
  let cp := N.lor (N.shiftl (N.land (Byte.to_N b0) 0x0F) 12)
              (N.lor (N.shiftl (cont_bits c1) 6) (cont_bits c2)) in
  between 0xE0 0xEF (Byte.to_N b0) = true ->
  is_cont c1 = true -> is_cont c2 = true ->
  (0x800 <=? cp)%N = true -> between 0xD800 0xDFFF cp = false ->
  utf8_encode_char cp = Some [b0; c1; c2].
Proof.
  intros cp Hb0 Hc1 Hc2 Hlo Hsur.
  pose proof (cont_bits_bound c1) as B1. pose proof (cont_bits_bound c2) as B2.
  pose proof (cont_pair_bound c1 c2) as B12.
  assert (cp < 2 ^ 16)%N as Hhi.
  { apply lor_lt_pow2; [by apply lead_bits_bound|].
    change (2 ^ 16)%N with 65536%N. change (2 ^ 12)%N with 4096%N in B12. lia. }
  assert (N.shiftr cp 12 = N.land (Byte.to_N b0) 0x0F) as H12
    by by apply shiftr_lor_shiftl.
  assert (N.land (N.shiftr cp 6) 0x3F = cont_bits c1) as H6.
  { unfold cp. rewrite N.shiftr_lor, N.shiftr_shiftl_l by lia.
    rewrite shiftr_lor_shiftl by done.
    change 63%N with (N.ones 6). change (12 - 6)%N with 6%N.
    rewrite land_lor_shiftl by lia. by apply land_ones_small. }
  assert (N.land cp 0x3F = cont_bits c2) as H0.
  { unfold cp. change 63%N with (N.ones 6).
    rewrite !land_lor_shiftl by lia. by apply land_ones_small. }
  unfold utf8_encode_char. apply N.leb_le in Hlo.
  assert ((cp <? 128)%N = false) as -> by (apply N.ltb_ge; lia).
  assert ((cp <? 2048)%N = false) as -> by (apply N.ltb_ge; lia).
  assert ((cp <? 65536)%N = true) as ->
    by (apply N.ltb_lt; change (2 ^ 16)%N with 65536%N in Hhi; lia).
  rewrite Hsur, H12, H6, H0.
  by rewrite lead3_back, !cont_byte_back.
Qed.

Lemma utf8_encode_four (b0 c1 c2 c3 : byte) :
  let cp := N.lor (N.shiftl (N.land (Byte.to_N b0) 0x07) 18)
              (N.lor (N.shiftl (cont_bits c1) 12)
                 (N.lor (N.shiftl (cont_bits c2) 6) (cont_bits c3))) in
  between 0xF0 0xF4 (Byte.to_N b0) = true ->
  is_cont c1 = true -> is_cont c2 = true -> is_cont c3 = true ->
  between 0x10000 0x10FFFF cp = true ->
  utf8_encode_char cp = Some [b0; c1; c2; c3].
Proof.
  intros cp Hb0 Hc1 Hc2 Hc3 Hrange.
  pose proof (cont_bits_bound c1) as B1. pose proof (cont_bits_bound c2) as B2.
  pose proof (cont_bits_bound c3) as B3.
  pose proof (cont_pair_bound c2 c3) as B23.
  pose proof (cont_triple_bound c1 c2 c3) as B123.
  assert (N.shiftr cp 18 = N.land (Byte.to_N b0) 0x07) as H18
    by by apply shiftr_lor_shiftl.
  assert (N.land (N.shiftr cp 12) 0x3F = cont_bits c1) as H12.
  { unfold cp. rewrite N.shiftr_lor, N.shiftr_shiftl_l by lia.
    rewrite shiftr_lor_shiftl by done.
    change 63%N with (N.ones 6). change (18 - 12)%N with 6%N.
    rewrite land_lor_shiftl by lia. by apply land_ones_small. }
  assert (N.land (N.shiftr cp 6) 0x3F = cont_bits c2) as H6.
  { unfold cp. rewrite !N.shiftr_lor, !N.shiftr_shiftl_l by lia.
    rewrite (shiftr_small (cont_bits c3)) by done.
    change 63%N with (N.ones 6). change (18 - 6)%N with 12%N.
    change (12 - 6)%N with 6%N. change (6 - 6)%N with 0%N.
    rewrite N.shiftl_0_r, N.lor_0_r.
    rewrite !land_lor_shiftl by lia. by apply land_ones_small. }
  assert (N.land cp 0x3F = cont_bits c3) as H0.
  { unfold cp. change 63%N with (N.ones 6).
    rewrite !land_lor_shiftl by lia. by apply land_ones_small. }
  unfold utf8_encode_char. unfold between in Hrange.
  apply andb_true_iff in Hrange as [Hlo Hhi]. apply N.leb_le in Hlo, Hhi.
  assert ((cp <? 128)%N = false) as -> by (apply N.ltb_ge; lia).
  assert ((cp <? 2048)%N = false) as -> by (apply N.ltb_ge; lia).
  assert ((cp <? 65536)%N = false) as -> by (apply N.ltb_ge; lia).
  assert ((cp <? 1114112)%N = true) as -> by (apply N.ltb_lt; lia).
  rewrite H18, H12, H6, H0.
  by rewrite lead4_back, !cont_byte_back.
Qed.

(** Encoding what the strict decoder returned gives the bytes back. *)
Lemma utf8_encode_decode (b : bytes) (t : str) :
  utf8_decode b = Some t -> utf8_encode t = Some b.
Proof.
  remember (length b) as n eqn:Hn. revert b t Hn.
  induction n as [n IH] using lt_wf_ind. intros b t -> Hdec.
  destruct b as [|b0 r0]; [by injection Hdec as <-|].
  cbn [utf8_decode] in Hdec.
  destruct (Byte.to_N b0 <? 128)%N eqn:E1.
  { destruct (utf8_decode r0) as [t0|] eqn:Et; [|done]. injection Hdec as <-.
    cbn [utf8_encode]. rewrite (IH (length r0) ltac:(simpl; lia) r0 t0 eq_refl Et).
    unfold utf8_encode_char. by rewrite E1, u8_to_N. }
  destruct (between 194 223 (Byte.to_N b0)) eqn:E2.
  { destruct r0 as [|c1 r1]; [done|]. destruct (is_cont c1) eqn:Ec1; [|done].
    destruct (utf8_decode r1) as [t0|] eqn:Et; [|done]. injection Hdec as <-.
    cbn [utf8_encode]. rewrite (IH (length r1) ltac:(simpl; lia) r1 t0 eq_refl Et).
    by rewrite lead2_back. }
  destruct (between 224 239 (Byte.to_N b0)) eqn:E3.
  { destruct r0 as [|c1 [|c2 r2]]; [done..|].
    match type of Hdec with (if ?c then _ else _) = _ => destruct c eqn:Ec end;
      [|done].
    destruct (utf8_decode r2) as [t0|] eqn:Et; [|done]. injection Hdec as <-.
    apply andb_true_iff in Ec as [[[Hc1 Hc2]%andb_true_iff Hlo]%andb_true_iff Hsur].
    apply negb_true_iff in Hsur.
    cbn [utf8_encode]. rewrite (IH (length r2) ltac:(simpl; lia) r2 t0 eq_refl Et).
    by rewrite utf8_encode_three. }
  destruct (between 240 244 (Byte.to_N b0)) eqn:E4; [|done].
  destruct r0 as [|c1 [|c2 [|c3 r3]]]; [done..|].
  match type of Hdec with (if ?c then _ else _) = _ => destruct c eqn:Ec end;
    [|done].
  destruct (utf8_decode r3) as [t0|] eqn:Et; [|done]. injection Hdec as <-.
  apply andb_true_iff in Ec
    as [[[Hc1 Hc2]%andb_true_iff Hc3]%andb_true_iff Hrange].
  cbn [utf8_encode]. rewrite (IH (length r3) ltac:(simpl; lia) r3 t0 eq_refl Et).
  by rewrite utf8_encode_four.
Qed.

Section LosslessProps.
Context {env : Env}.

(** X20: whichever file lines 210-241 write for an XML payload holds the
    payload byte for byte: [key.bin] holds the bytes themselves, and the
    text of [key.xml] encodes in UTF-8 to exactly those bytes. *)
Theorem xml_payload_stored_verbatim (output_dir key : str) (payload : bytes)
    (fs fs' : filesystem) :
  save_xml_payload output_dir key payload fs = Some fs' ->
  (exists text,
     fs' = put (path_join output_dir (key ++ slit ".xml")) (FText text) fs
     /\ utf8_encode text = Some payload)
  \/ fs' = put (path_join output_dir (key ++ slit ".bin")) (FBytes payload) fs.
Proof.
  unfold save_xml_payload. intros Hrun.
  destruct (utf8_decode payload) as [text|] eqn:Ed.
  - destruct (write_text _ text fs) as [fs1|] eqn:Ew.
    + injection Hrun as <-. left. exists text.
      split; [by apply write_text_path|by apply utf8_encode_decode].
    + right. by apply write_bytes_path.
  - right. by apply write_bytes_path.
Qed.
End LosslessProps.

Lemma xml_payload_stored_verbatim_witness :
  (exists text,
     put (slit "extracted/airframe_xml.xml") (FText (ascii_str xml_text)) empty_fs
     = put (path_join (slit "extracted") (slit "airframe_xml" ++ slit ".xml"))
         (FText text) empty_fs
     /\ utf8_encode text = Some xml_text)
  \/ put (slit "extracted/airframe_xml.xml") (FText (ascii_str xml_text)) empty_fs
     = put (path_join (slit "extracted") (slit "airframe_xml" ++ slit ".bin"))
         (FBytes xml_text) empty_fs.
Proof.
  apply (@xml_payload_stored_verbatim table_env (slit "extracted")
           (slit "airframe_xml") xml_text empty_fs).
  vm_compute. reflexivity.
Defined.

(** ** The run as a whole *)

Lemma find_json_bytes_embedded (noise1 obj noise2 : bytes) :
  x7b ∉ noise1 ->
  head obj = Some x7b ->
  walk obj scan_init 0 = Some (len obj - 1) ->
  find_json_bytes (noise1 ++ obj ++ noise2) None = Some obj.
Proof.
  intros Hnoise Hhead Hw.
  destruct obj as [|b0 tl] eqn:Eobj; [done|]. injection Hhead as ->.
  rewrite <- Eobj in *.
  assert (len noise1 + len obj
          <= scan_limit (noise1 ++ obj ++ noise2) None (len noise1)) as Hlim.
  { unfold scan_limit. rewrite !len_app. pose proof (len_nonneg noise2). lia. }
  pose proof (walk_window_prefix noise1 obj noise2 _ Hw Hlim) as Hwin.
  assert (noise1 ++ obj ++ noise2 = noise1 ++ x7b :: (tl ++ noise2)) as Hdata
    by by rewrite Eobj.
  rewrite Hdata in Hwin |- *.
  rewrite (find_json_bytes_first noise1 (tl ++ noise2) None _ Hnoise Hwin).
  rewrite <- Hdata.
  replace (len noise1 + len obj - 1 + 1) with (len noise1 + len obj) by lia.
  by rewrite slice_exact.
Qed.

Section WholeRunProps.
Context {env : Env}.

(** X21: what surrounds the object does not matter to the run: with no
    opening brace before a balanced object, the buffer gives the same
    metadata and the same files as the object alone. *)
Theorem run_ignores_noise (noise1 obj noise2 : bytes) (fs : filesystem) :
  x7b ∉ noise1 ->
  head obj = Some x7b ->
  walk obj scan_init 0 = Some (len obj - 1) ->
  quick_extract_tags (Some (noise1 ++ obj ++ noise2)) = quick_extract_tags (Some obj)
  /\ main (Some (noise1 ++ obj ++ noise2)) fs = main (Some obj) fs.
Proof.
  intros Hnoise Hhead Hw.
  assert (quick_extract_tags (Some (noise1 ++ obj ++ noise2))
          = quick_extract_tags (Some obj)) as Hq.
  { unfold quick_extract_tags.
    rewrite (find_json_bytes_embedded noise1 obj noise2) by done.
    by rewrite (find_json_bytes_whole obj). }
  split; [done|]. unfold main. by rewrite Hq.
Qed.
End WholeRunProps.

Lemma run_ignores_noise_witness :
  @quick_extract_tags table_env
    (Some (blit "PX4}" ++ jlit "{'board_id':9,'description':'x'}" ++ blit "{{fw"))
  = @quick_extract_tags table_env (Some (jlit "{'board_id':9,'description':'x'}"))
  /\ @main table_env
       (Some (blit "PX4}" ++ jlit "{'board_id':9,'description':'x'}" ++ blit "{{fw"))
       empty_fs
     = @main table_env (Some (jlit "{'board_id':9,'description':'x'}")) empty_fs.
Proof.
  apply (@run_ignores_noise table_env).
  - apply (bool_decide_unpack _). vm_compute. exact I.
  - reflexivity.
  - reflexivity.
Defined.
